(** * candid: the operation resolver and the Ubuntu SSO OAuth provider

    A shallow embedding of

    - [internal/v1/auth.go]: [opForRequest], the map from the argument of an
      API handler to the [bakery.Op] the caller has to be allowed;
    - [idp/usso/ussooauth/ussooauth.go]: the identity provider that checks a
      signed request with Ubuntu SSO.

    Go packages become modules of the same name.  A Go string is a
    [string]; the empty string is written [EmptyString] throughout. *)

From Stdlib Require Import String Ascii List Bool Arith Lia.
From stdpp Require Import base strings gmap.
Import ListNotations.

Local Open Scope string_scope.

(** ** Go values that several packages share *)

(** A pointer [*T]: [None] is the nil pointer, [Some v] points to [v]. *)
Definition ptr (T : Type) : Type := option T.

(** How a call ends: it returns a value, or it panics. *)
Inductive ending (A : Type) : Type :=
| Returns (a : A)
| Panics (msg : string).
Arguments Returns {A} a.
Arguments Panics {A} msg.

(** The run-time panic of a field selection through a nil pointer. *)
Definition nil_dereference : string :=
  "runtime error: invalid memory address or nil pointer dereference".

(** ** gopkg.in/macaroon-bakery.v2/bakery *)

Module bakery.

(** [type Op struct { Entity string; Action string }] *)
Record Op : Type := mkOp { Entity : string; Action : string }.

(** [bakery.Op{}], the zero value. *)
Definition zero : Op := {| Entity := EmptyString; Action := EmptyString |}.

End bakery.

(** ** The names [auth.go] imports

    The action constants of [internal/auth] and [identchecker.LoginOp] are
    declared in packages that are not modelled; their values are parameters of the
    development, so that every theorem holds whatever they are. *)

Class Imports : Type := {
  ActionRead : string;
  ActionVerify : string;
  ActionDischargeFor : string;
  ActionCreateAgent : string;
  ActionReadAdmin : string;
  ActionWriteAdmin : string;
  ActionReadGroups : string;
  ActionWriteGroups : string;
  ActionReadSSHKeys : string;
  ActionWriteSSHKeys : string;
  (** [identchecker.LoginOp] *)
  LoginOp : bakery.Op
}.

(** ** internal/auth *)

Module auth.

(** Modelled from the spec: [auth.GlobalOp] is declared in [internal/auth],
    which is not among the sources.  The spec's data model gives an
    Operation the entity "global" when it is not scoped to a user. *)
Definition GlobalOp (action : string) : bakery.Op :=
  {| bakery.Entity := "global"; bakery.Action := action |}.

(** Modelled from the spec: [auth.UserOp] is declared in [internal/auth],
    which is not among the sources.  The spec's data model gives a
    user-scoped Operation the user identifier as its entity, and its
    examples read [Operation{Entity:"alice", Action:CreateAgent}]. *)
Definition UserOp (u : string) (action : string) : bakery.Op :=
  {| bakery.Entity := u; bakery.Action := action |}.

End auth.

(** ** gopkg.in/juju/idmclient.v1/params

    The request structs, with the fields [opForRequest] selects.  What else
    a struct holds (its route, a body) is never read by the code modelled
    here and is left out.  [params.Username] is a string type. *)

Module params.

Definition Username : Type := string.

Record QueryUsersRequest : Type := mkQueryUsersRequest {}.
Record UserRequest : Type := mkUserRequest { UserRequest_Username : Username }.
(** [Owner] is promoted from the embedded [User] body. *)
Record SetUserRequest : Type := mkSetUserRequest {
  SetUserRequest_Username : Username;
  SetUserRequest_Owner : Username
}.
Record UserGroupsRequest : Type :=
  mkUserGroupsRequest { UserGroupsRequest_Username : Username }.
Record SetUserGroupsRequest : Type :=
  mkSetUserGroupsRequest { SetUserGroupsRequest_Username : Username }.
Record ModifyUserGroupsRequest : Type :=
  mkModifyUserGroupsRequest { ModifyUserGroupsRequest_Username : Username }.
Record UserIDPGroupsRequest : Type :=
  mkUserIDPGroupsRequest { UserIDPGroupsRequest_Username : Username }.
Record WhoAmIRequest : Type := mkWhoAmIRequest {}.
Record SSHKeysRequest : Type :=
  mkSSHKeysRequest { SSHKeysRequest_Username : Username }.
Record PutSSHKeysRequest : Type :=
  mkPutSSHKeysRequest { PutSSHKeysRequest_Username : Username }.
Record DeleteSSHKeysRequest : Type :=
  mkDeleteSSHKeysRequest { DeleteSSHKeysRequest_Username : Username }.
Record UserTokenRequest : Type :=
  mkUserTokenRequest { UserTokenRequest_Username : Username }.
Record VerifyTokenRequest : Type := mkVerifyTokenRequest {}.
Record UserExtraInfoRequest : Type :=
  mkUserExtraInfoRequest { UserExtraInfoRequest_Username : Username }.
Record SetUserExtraInfoRequest : Type :=
  mkSetUserExtraInfoRequest { SetUserExtraInfoRequest_Username : Username }.
Record UserExtraInfoItemRequest : Type :=
  mkUserExtraInfoItemRequest { UserExtraInfoItemRequest_Username : Username }.
Record SetUserExtraInfoItemRequest : Type :=
  mkSetUserExtraInfoItemRequest
    { SetUserExtraInfoItemRequest_Username : Username }.
Record DischargeTokenForUserRequest : Type :=
  mkDischargeTokenForUserRequest {}.

(** [params.User], what the user store hands back. *)
Record User : Type := mkUser { User_Username : Username; User_ExternalID : string }.

End params.

(** ** internal/v1 *)

Module v1.
Import params.

(** The argument of [opForRequest] has type [interface{}].  Its dynamic
    value is the nil interface, a pointer (possibly nil) to one of the
    eighteen request structs of the type switch, or a value of any other
    dynamic type, kept as the name of that type and its Go syntax. *)
Inductive arg : Type :=
| NilInterface
| QueryUsers (p : ptr QueryUsersRequest)
| GetUser (p : ptr UserRequest)
| SetUser (p : ptr SetUserRequest)
| UserGroups (p : ptr UserGroupsRequest)
| SetUserGroups (p : ptr SetUserGroupsRequest)
| ModifyUserGroups (p : ptr ModifyUserGroupsRequest)
| UserIDPGroups (p : ptr UserIDPGroupsRequest)
| WhoAmI (p : ptr WhoAmIRequest)
| SSHKeys (p : ptr SSHKeysRequest)
| PutSSHKeys (p : ptr PutSSHKeysRequest)
| DeleteSSHKeys (p : ptr DeleteSSHKeysRequest)
| UserToken (p : ptr UserTokenRequest)
| VerifyToken (p : ptr VerifyTokenRequest)
| UserExtraInfo (p : ptr UserExtraInfoRequest)
| SetUserExtraInfo (p : ptr SetUserExtraInfoRequest)
| UserExtraInfoItem (p : ptr UserExtraInfoItemRequest)
| SetUserExtraInfoItem (p : ptr SetUserExtraInfoItemRequest)
| DischargeTokenForUser (p : ptr DischargeTokenForUserRequest)
| OtherValue (dynamicType : string) (goSyntax : string).

(** The type switch has a case for [r]. *)
Definition known (r : arg) : bool :=
  match r with
  | NilInterface | OtherValue _ _ => false
  | _ => true
  end.

(** One call of [logger.Infof]: the format and its operands. *)
Inductive LogRecord : Type :=
| Infof (format : string) (operands : list arg).

(** A computation writes log records and ends. *)
Definition Exec (A : Type) : Type := (list LogRecord * ending A)%type.

Definition ret {A : Type} (a : A) : Exec A := ([], Returns a).

Definition bind {A B : Type} (m : Exec A) (k : A -> Exec B) : Exec B :=
  match m with
  | (l, Returns a) => let (l', e) := k a in ((l ++ l')%list, e)
  | (l, Panics msg) => (l, Panics msg)
  end.

(** [p.f] for a pointer [p]: the selection panics on nil. *)
Definition deref {T : Type} (p : ptr T) : Exec T :=
  match p with
  | Some v => ret v
  | None => ([], Panics nil_dereference)
  end.

Definition logger_Infof (format : string) (operands : list arg) : Exec unit :=
  ([Infof format operands], Returns tt).

Declare Scope exec_scope.
Delimit Scope exec_scope with exec.
Notation "x <- m ;; k" := (bind m (fun x => k))
  (at level 100, m at next level, right associativity) : exec_scope.
Notation "m ;;; k" := (bind m (fun _ => k))
  (at level 100, right associativity) : exec_scope.

Section Resolver.
Context `{I : Imports}.
Local Open Scope exec_scope.

(** [opForRequest] returns the operation that will be performed by the
    API handler method which takes the given argument [r]. *)
Definition opForRequest (r : arg) : Exec bakery.Op :=
  match r with
  | QueryUsers _ =>
      ret (auth.GlobalOp ActionRead)
  | GetUser p =>
      r <- deref p ;;
      ret (auth.UserOp (UserRequest_Username r) ActionRead)
  | SetUser p =>
      r <- deref p ;;
      if negb (String.eqb (SetUserRequest_Owner r) EmptyString)
      then ret (auth.UserOp (SetUserRequest_Owner r) ActionCreateAgent)
      else ret (auth.UserOp (SetUserRequest_Username r) ActionWriteAdmin)
  | UserGroups p =>
      r <- deref p ;;
      ret (auth.UserOp (UserGroupsRequest_Username r) ActionReadGroups)
  | SetUserGroups p =>
      r <- deref p ;;
      ret (auth.UserOp (SetUserGroupsRequest_Username r) ActionWriteGroups)
  | ModifyUserGroups p =>
      r <- deref p ;;
      ret (auth.UserOp (ModifyUserGroupsRequest_Username r) ActionWriteGroups)
  | UserIDPGroups p =>
      r <- deref p ;;
      ret (auth.UserOp (UserIDPGroupsRequest_Username r) ActionReadGroups)
  | WhoAmI _ =>
      ret LoginOp
  | SSHKeys p =>
      r <- deref p ;;
      ret (auth.UserOp (SSHKeysRequest_Username r) ActionReadSSHKeys)
  | PutSSHKeys p =>
      r <- deref p ;;
      ret (auth.UserOp (PutSSHKeysRequest_Username r) ActionWriteSSHKeys)
  | DeleteSSHKeys p =>
      r <- deref p ;;
      ret (auth.UserOp (DeleteSSHKeysRequest_Username r) ActionWriteSSHKeys)
  | UserToken p =>
      r <- deref p ;;
      ret (auth.UserOp (UserTokenRequest_Username r) ActionReadAdmin)
  | VerifyToken _ =>
      ret (auth.GlobalOp ActionVerify)
  | UserExtraInfo p =>
      r <- deref p ;;
      ret (auth.UserOp (UserExtraInfoRequest_Username r) ActionReadAdmin)
  | SetUserExtraInfo p =>
      r <- deref p ;;
      ret (auth.UserOp (SetUserExtraInfoRequest_Username r) ActionWriteAdmin)
  | UserExtraInfoItem p =>
      r <- deref p ;;
      ret (auth.UserOp (UserExtraInfoItemRequest_Username r) ActionReadAdmin)
  | SetUserExtraInfoItem p =>
      r <- deref p ;;
      ret (auth.UserOp (SetUserExtraInfoItemRequest_Username r) ActionWriteAdmin)
  | DischargeTokenForUser _ =>
      ret (auth.GlobalOp ActionDischargeFor)
  | NilInterface | OtherValue _ _ =>
      logger_Infof "unknown API argument type %#v" [r] ;;;
      ret bakery.zero
  end.

(** The case of [r] selects a field of the struct [r] points to. *)
Definition reads_field (r : arg) : bool :=
  match r with
  | NilInterface | OtherValue _ _
  | QueryUsers _ | WhoAmI _ | VerifyToken _ | DischargeTokenForUser _ => false
  | _ => true
  end.

(** [r] is a nil pointer to one of the eighteen structs. *)
Definition nil_pointer (r : arg) : bool :=
  match r with
  | QueryUsers None | GetUser None | SetUser None | UserGroups None
  | SetUserGroups None | ModifyUserGroups None | UserIDPGroups None
  | WhoAmI None | SSHKeys None | PutSSHKeys None | DeleteSSHKeys None
  | UserToken None | VerifyToken None | UserExtraInfo None
  | SetUserExtraInfo None | UserExtraInfoItem None
  | SetUserExtraInfoItem None | DischargeTokenForUser None => true
  | _ => false
  end.

End Resolver.

End v1.

(** ** gopkg.in/errgo.v1 *)

Module errgo.

(** The errors this code handles: one that a collaborator outside the
    package hands over, and the three ways [errgo] makes one.  A format
    is kept with its operands, unformatted. *)
Inductive error : Type :=
| Foreign (msg : string)
| Newf (format : string) (operands : list string)
| Notef (underlying : error) (format : string) (operands : list string)
| Mask (underlying : error).

End errgo.

(** A Go result [(T, error)] of which exactly one component is set. *)
Inductive result (A : Type) : Type :=
| Ok (a : A)
| Err (e : errgo.error).
Arguments Ok {A} a.
Arguments Err {A} e.

(** The character U+0022. *)
Definition dquote : string := String "034"%char EmptyString.

(** ** encoding/json *)

Module json.

(** A JSON object all of whose members are strings, as the list of its
    members in the order they are written.  The texts this package
    marshals are of this form and are kept as the object they encode. *)
Definition Object : Type := list (string * string).

Definition keys (o : Object) : list string := map fst o.

(** The three bytes of U+FFFD, the replacement character, in UTF-8. *)
Definition replacement : string :=
  String "239"%char (String "191"%char (String "189"%char EmptyString)).

(** The byte [c] lies between [lo] and [hi]. *)
Definition between (lo hi : N) (c : ascii) : bool :=
  ((lo <=? N_of_ascii c) && (N_of_ascii c <=? hi))%N.

(** The second byte a three-byte sequence may have behind the first byte
    [b0]: E0 asks for A0 to BF, ED for 80 to 9F, the others for 80 to
    BF. *)
Definition second_of_three (b0 b1 : ascii) : bool :=
  if between 224 224 b0 then between 160 191 b1
  else if between 237 237 b0 then between 128 159 b1
  else between 128 191 b1.

(** The second byte a four-byte sequence may have behind the first byte
    [b0]: F0 asks for 90 to BF, F4 for 80 to 8F, the others for 80 to
    BF. *)
Definition second_of_four (b0 b1 : ascii) : bool :=
  if between 240 240 b0 then between 144 191 b1
  else if between 244 244 b0 then between 128 143 b1
  else between 128 191 b1.

(** The length of the well-formed UTF-8 sequence [s] starts with, and 0
    when it starts with none: where [utf8.DecodeRuneInString] reports the
    error rune of width 1. *)
Definition rune_size (s : string) : nat :=
  match s with
  | EmptyString => 0
  | String b0 s1 =>
      if between 0 127 b0 then 1
      else if between 194 223 b0 then
        match s1 with
        | String b1 _ => if between 128 191 b1 then 2 else 0
        | EmptyString => 0
        end
      else if between 224 239 b0 then
        match s1 with
        | String b1 (String b2 _) =>
            if second_of_three b0 b1 && between 128 191 b2 then 3 else 0
        | _ => 0
        end
      else if between 240 244 b0 then
        match s1 with
        | String b1 (String b2 (String b3 _)) =>
            if second_of_four b0 b1 && between 128 191 b2
               && between 128 191 b3
            then 4 else 0
        | _ => 0
        end
      else 0
  end.

(** The string that [json.Marshal] writes for the Go string [s], as the
    value the text written encodes: the encoder goes through [s] sequence
    by sequence, keeps a well-formed UTF-8 sequence and writes U+FFFD for a
    byte that starts none.  [skip] counts the bytes of the sequence at
    hand still to keep. *)
Fixpoint marshal_from (skip : nat) (s : string) : string :=
  match s with
  | EmptyString => EmptyString
  | String c s' =>
      match skip with
      | S n => String c (marshal_from n s')
      | O =>
          match rune_size (String c s') with
          | O => replacement ++ marshal_from 0 s'
          | S n => String c (marshal_from n s')
          end
      end
  end.

Definition marshal_string (s : string) : string := marshal_from 0 s.

(** [s] is well-formed UTF-8 from end to end. *)
Fixpoint well_formed_from (skip : nat) (s : string) : bool :=
  match s with
  | EmptyString => true
  | String c s' =>
      match skip with
      | S n => well_formed_from n s'
      | O =>
          match rune_size (String c s') with
          | O => false
          | S n => well_formed_from n s'
          end
      end
  end.

Definition well_formed (s : string) : bool := well_formed_from 0 s.

End json.

(** ** net/url *)

Module url.

Record Userinfo : Type := mkUserinfo {
  username : string;
  password : string;
  passwordSet : bool
}.

(** [type URL struct] *)
Record URL : Type := mkURL {
  Scheme : string;
  Opaque : string;
  User : ptr Userinfo;
  Host : string;
  Path : string;
  RawPath : string;
  ForceQuery : bool;
  RawQuery : string;
  Fragment : string
}.

(** [u.RawQuery = q] *)
Definition set_RawQuery (u : URL) (q : string) : URL :=
  {| Scheme := Scheme u; Opaque := Opaque u; User := User u; Host := Host u;
     Path := Path u; RawPath := RawPath u; ForceQuery := ForceQuery u;
     RawQuery := q; Fragment := Fragment u |}.

End url.

(** [url.Values] and [http.Header] are both [map[string][]string]. *)
Abbreviation Values := (gmap string (list string)).
Abbreviation Header := (gmap string (list string)).

(** ** net/http *)

Module http.

(** [Header.Get]: the first value under [key], or the empty string.  The
    two keys used below, Authorization and Content-Type, are in canonical
    form already. *)
Definition Header_Get (h : Header) (key : string) : string :=
  match h !! key with
  | Some (v :: _) => v
  | _ => EmptyString
  end.

(** The parts of an inbound [http.Request] the provider touches: the
    method, the header and what [ParseForm] reads (the query of the
    request line and the body). *)
Record Request : Type := mkRequest {
  Method : string;
  Request_Header : Header;
  Request_RawQuery : string;
  Request_Body : string
}.

(** A response: its header, and the data [ioutil.ReadAll] gets from its
    body. *)
Record Response : Type := mkResponse {
  Response_Header : Header;
  Response_Body : string
}.

End http.

(** ** regexp, for the one pattern of the provider

    A string is read byte by byte.  U+0022 is one byte, and no encoding of
    another character contains that byte, so this reading finds the same
    matches as the reading by characters. *)

Module regexp.

(** [strip p s] is what follows [p] in [s] when [s] starts with [p]. *)
Fixpoint strip (p s : string) : option string :=
  match p, s with
  | EmptyString, _ => Some s
  | String a p', String b s' => if Ascii.eqb a b then strip p' s' else None
  | String _ _, EmptyString => None
  end.

(** The tail of the pattern, a greedy run of characters other than
    U+0022 and then U+0022, at the start of [s]: the run before the first
    U+0022 and what follows that character; no match without one. *)
Fixpoint group_then_quote (s : string) : option (string * string) :=
  match s with
  | EmptyString => None
  | String c s' =>
      if Ascii.eqb c "034"%char then Some (EmptyString, s')
      else match group_then_quote s' with
           | Some (g, rest) => Some (String c g, rest)
           | None => None
           end
  end.

(** The literal the pattern starts with. *)
Definition prefix : string := "oauth_consumer_key=" ++ dquote.

(** The pattern of [consumerKeyRegexp] (the literal, the parenthesised
    run, the closing U+0022) anchored at the start of [s]: the submatch
    and the rest of [s] after the match. *)
Definition match_here (s : string) : option (string * string) :=
  match strip prefix s with
  | Some s' => group_then_quote s'
  | None => None
  end.

(** The text of a match whose submatch is [g]. *)
Definition whole (g : string) : string := prefix ++ g ++ dquote.

(** [FindStringSubmatch]: the leftmost match and its submatch, as the
    slice [[match, submatch]]; the nil slice when there is no match. *)
Fixpoint FindStringSubmatch (s : string) : list string :=
  match match_here s with
  | Some (g, _) => [whole g; g]
  | None =>
      match s with
      | EmptyString => []
      | String _ s' => FindStringSubmatch s'
      end
  end.

(** All matches of the pattern in [s], left to right and not overlapping
    (as [FindAllStringSubmatch] reports them): after a match the search
    goes on behind it.  [skip] counts the characters of the last match
    still to pass. *)
Fixpoint matches_from (skip : nat) (s : string) : list (list string) :=
  match s with
  | EmptyString => []
  | String _ s' =>
      match skip with
      | S n => matches_from n s'
      | O =>
          match match_here s with
          | Some (g, _) =>
              [whole g; g] :: matches_from (String.length (whole g) - 1) s'
          | None => matches_from 0 s'
          end
      end
  end.

Definition matches (s : string) : list (list string) := matches_from 0 s.

(** The consumer keys of a header: the submatch of every match. *)
Definition consumer_keys (s : string) : list string :=
  map (fun m => nth 1 m EmptyString) (matches s).

End regexp.

(** ** idp/usso/ussooauth *)

Module ussooauth.
Import errgo.

Definition ussoURL : string := "https://login.ubuntu.com".

(** [type identityProvider struct{}] *)
Record identityProvider : Type := mkIdentityProvider {}.

(** [var IdentityProvider idp.IdentityProvider]: the nil pointer to an
    [identityProvider]. *)
Definition IdentityProvider : ptr identityProvider := None.

(** [Name] gives the name of the identity provider. *)
Definition Name (_ : ptr identityProvider) : string := "usso_oauth".

(** [Description] gives a description of the identity provider. *)
Definition Description (_ : ptr identityProvider) : string := "Ubuntu SSO OAuth".

(** [Interactive] specifies that this identity provider is not
    interactive. *)
Definition Interactive (_ : ptr identityProvider) : bool := false.

(** The factory [init] registers; its argument, the function that would
    unmarshal the provider's configuration, is not used. *)
Definition factory : Type :=
  (string -> option error) -> ptr identityProvider * option error.

(** One call of [config.RegisterIDP]: the name and the factory given. *)
Record registration : Type := mkRegistration {
  registered_name : string;
  registered_factory : factory
}.

(** [func init()], as the registrations it makes. *)
Definition init : list registration :=
  [ {| registered_name := "usso_oauth";
       registered_factory := fun _ => (IdentityProvider, None) |} ].

(** [idp.URLContext], with its one method. *)
Record URLContext : Type := mkURLContext { URLContext_URL : string -> string }.

(** [URL] gets the login URL to use this identity provider. *)
Definition URL (_ : ptr identityProvider) (c : URLContext) (waitID : string)
    : string * option error :=
  let callback := URLContext_URL c "/oauth" in
  let callback :=
    if negb (String.eqb waitID EmptyString)
    then callback ++ "?waitid=" ++ waitID
    else callback in
  (callback, None).

(** The struct [verifyOAuthSignature] marshals. *)
Record request : Type := mkrequest {
  request_URL : string;
  request_Method : string;
  request_Authorization : string;
  request_QueryString : string
}.

(** [json.Marshal] of a [request]: an object with the member names of the
    struct tags, in the order of the fields; each member is the string of
    the field as the encoder writes a string, with U+FFFD in the place of
    every byte that is not part of a well-formed UTF-8 sequence.
    Marshalling a struct of strings does not fail, so the branch of the
    source that handles its error is never taken. *)
Definition json_Marshal (r : request) : json.Object :=
  [ ("http_url", json.marshal_string (request_URL r));
    ("http_method", json.marshal_string (request_Method r));
    ("authorization", json.marshal_string (request_Authorization r));
    ("query_string", json.marshal_string (request_QueryString r)) ].

(** The struct the response is unmarshalled into. *)
Record validated : Type := mkvalidated {
  IsValid : bool;
  Error : string
}.

(** What the provider calls and does not define: the standard library and
    the validator at the other end of [http.Post].  Every theorem below
    holds for all of them. *)
Class World : Type := {
  (** [url.Parse] *)
  url_Parse : string -> result url.URL;
  (** the method [String] of a [url.URL] *)
  URL_String : url.URL -> string;
  (** [req.ParseForm()] followed by [req.Form] *)
  Request_ParseForm : http.Request -> Values;
  (** [url.Values.Encode] *)
  Values_Encode : Values -> string;
  (** [http.Post], by URL, content type and body *)
  http_Post : string -> string -> json.Object -> result http.Response;
  (** [mime.ParseMediaType]: the media type and its parameters *)
  mime_ParseMediaType : string -> result (string * gmap string string);
  (** [json.Unmarshal] into a zero [validated] *)
  json_Unmarshal : string -> result validated
}.

(** What a login attempt does to the outside, in order. *)
Inductive Event : Type :=
| EvPost (target contentType : string) (body : json.Object)
| EvReadAll
| EvUnmarshal (data : string)
| EvBodyClose
| EvFindUser (id : string)
| EvLoginFailure (err : error)
| EvLoginSuccess (u : params.User).

(** A computation leaves a trace of events and yields a value. *)
Definition IO (A : Type) : Type := (list Event * A)%type.

Definition ret {A : Type} (a : A) : IO A := ([], a).

Definition bind {A B : Type} (m : IO A) (k : A -> IO B) : IO B :=
  let (t, a) := m in let (t', b) := k a in ((t ++ t')%list, b).

Definition emit (e : Event) : IO unit := ([e], tt).

(** [defer d; body]: [d] runs when [body] has returned. *)
Definition defer {A : Type} (d : IO unit) (body : IO A) : IO A :=
  bind body (fun a => bind d (fun _ => ret a)).

Declare Scope io_scope.
Delimit Scope io_scope with io.
Notation "x <- m ;; k" := (bind m (fun x => k))
  (at level 100, m at next level, right associativity) : io_scope.
Notation "m ;;; k" := (bind m (fun _ => k))
  (at level 100, right associativity) : io_scope.

(** [idp.Context], as far as [Handle] uses it: the URL of the login
    request, the request itself ([c.Params().Request]) and the user store.
    Its two sinks, [LoginFailure] and [LoginSuccess], are events. *)
Record Context : Type := mkContext {
  RequestURL : string;
  Params_Request : http.Request;
  FindUserByExternalId : string -> result params.User
}.

Section Provider.
Context `{W : World}.
Local Open Scope io_scope.

(** [verifyOAuthSignature] verifies with Ubuntu SSO that the request is
    correctly signed. *)
Definition verifyOAuthSignature (requestURL : string) (req : http.Request)
    : IO (result string) :=
  let form := Request_ParseForm req in
  match url_Parse requestURL with
  | Err err => ret (Err (Notef err "cannot parse request URL" []))
  | Ok u =>
    let u := url.set_RawQuery u EmptyString in
    let request := {|
      request_URL := URL_String u;
      request_Method := http.Method req;
      request_Authorization :=
        http.Header_Get (http.Request_Header req) "Authorization";
      request_QueryString := Values_Encode form |} in
    let buf := json_Marshal request in
    let target := ussoURL ++ "/api/v2/requests/validate" in
    emit (EvPost target "application/json" buf) ;;;
    match http_Post target "application/json" buf with
    | Err err => ret (Err (Mask err))
    | Ok resp =>
      defer (emit EvBodyClose) (
        let contentType :=
          http.Header_Get (http.Response_Header resp) "Content-Type" in
        match mime_ParseMediaType contentType with
        | Err _ => ret (Err (Newf "bad content type %q" [contentType]))
        | Ok (t, _) =>
          if negb (String.eqb t "application/json")
          then ret (Err (Newf "unexpected response type %q" [t]))
          else
            emit EvReadAll ;;;
            let data := http.Response_Body resp in
            emit (EvUnmarshal data) ;;;
            match json_Unmarshal data with
            | Err err => ret (Err (Mask err))
            | Ok validated =>
              if negb (String.eqb (Error validated) EmptyString)
              then ret (Err (Newf "cannot validate OAuth credentials: %s"
                                  [Error validated]))
              else if negb (IsValid validated)
              then ret (Err (Newf "invalid OAuth credentials" []))
              else
                let consumerKey :=
                  regexp.FindStringSubmatch
                    (http.Header_Get (http.Request_Header req)
                       "Authorization") in
                if negb (Nat.eqb (List.length consumerKey) 2)
                then ret (Err (Newf "no customer key in authorization" []))
                else ret (Ok (ussoURL ++ "/+id/"
                                ++ nth 1 consumerKey EmptyString))
            end
        end)
    end
  end.

(** Modelled from the spec: [idputil.LoginUser] is declared in
    [idp/idputil], which is not among the sources.  On a successful
    resolution the login-completion collaborator is invoked with the
    resolved user. *)
Definition LoginUser (c : Context) (u : params.User) : IO unit :=
  emit (EvLoginSuccess u).

(** [Handle] handles the Ubuntu SSO OAuth login process. *)
Definition Handle (_ : ptr identityProvider) (c : Context) : IO unit :=
  r <- verifyOAuthSignature (RequestURL c) (Params_Request c) ;;
  match r with
  | Err err => emit (EvLoginFailure err)
  | Ok id =>
    emit (EvFindUser id) ;;;
    match FindUserByExternalId c id with
    | Err err =>
        emit (EvLoginFailure
                (Notef err "cannot get user details for %q" [id]))
    | Ok u => LoginUser c u
    end
  end.

End Provider.

(** The calls of the two sinks in a trace. *)
Definition is_sink (e : Event) : bool :=
  match e with
  | EvLoginFailure _ | EvLoginSuccess _ => true
  | _ => false
  end.

Definition sinks (t : list Event) : list Event := List.filter is_sink t.

Definition is_post (e : Event) : bool :=
  match e with
  | EvPost _ _ _ => true
  | _ => false
  end.

Definition posts (t : list Event) : list Event := List.filter is_post t.

(** The events that touch the body of the response. *)
Definition reads_body (e : Event) : bool :=
  match e with
  | EvReadAll | EvUnmarshal _ => true
  | _ => false
  end.

Definition is_success (e : Event) : bool :=
  match e with
  | EvLoginSuccess _ => true
  | _ => false
  end.

(** *** Notions the statements below use *)

(** Where the validator is asked. *)
Definition endpoint : string := ussoURL ++ "/api/v2/requests/validate".

(** The object the validator is sent about the request [req] whose URL
    parsed to [u]: the four strings, each as [json.Marshal] writes it. *)
Definition payload `{W : World} (u : url.URL) (req : http.Request)
    : json.Object :=
  [ ("http_url",
     json.marshal_string (URL_String (url.set_RawQuery u EmptyString)));
    ("http_method", json.marshal_string (http.Method req));
    ("authorization",
     json.marshal_string
       (http.Header_Get (http.Request_Header req) "Authorization"));
    ("query_string",
     json.marshal_string (Values_Encode (Request_ParseForm req))) ].

(** The login of [c] fails with [cause]: the verification returns it as
    its error, and the one sink [Handle] calls is [LoginFailure] with
    it. *)
Definition fails_with `{W : World} (c : Context) (cause : error) : Prop :=
  snd (verifyOAuthSignature (RequestURL c) (Params_Request c)) = Err cause
  /\ sinks (fst (Handle IdentityProvider c)) = [EvLoginFailure cause].

(** The verification for [c] neither reads nor unmarshals the body of the
    response. *)
Definition body_untouched `{W : World} (c : Context) : Prop :=
  List.filter reads_body
    (fst (verifyOAuthSignature (RequestURL c) (Params_Request c))) = [].

End ussooauth.

(** ** Examples to evaluate the model on *)

Module example.
Import ussooauth.

(** One choice of the imported names: every action under the name the
    data model lists it by. *)
Definition names : Imports := {|
  ActionRead := "Read";
  ActionVerify := "Verify";
  ActionDischargeFor := "DischargeFor";
  ActionCreateAgent := "CreateAgent";
  ActionReadAdmin := "ReadAdmin";
  ActionWriteAdmin := "WriteAdmin";
  ActionReadGroups := "ReadGroups";
  ActionWriteGroups := "WriteGroups";
  ActionReadSSHKeys := "ReadSSHKeys";
  ActionWriteSSHKeys := "WriteSSHKeys";
  LoginOp := {| bakery.Entity := "login"; bakery.Action := "Login" |}
|}.

(** A login callback. *)
Definition callbackURL : string :=
  "https://idm.example.com/login/usso_oauth/oauth?waitid=7".

Definition callbackURL_parsed : url.URL := {|
  url.Scheme := "https"; url.Opaque := EmptyString; url.User := None;
  url.Host := "idm.example.com"; url.Path := "/login/usso_oauth/oauth";
  url.RawPath := EmptyString; url.ForceQuery := false;
  url.RawQuery := "waitid=7"; url.Fragment := EmptyString |}.

(** An Authorization header that names the consumer keys [ks] in turn. *)
Fixpoint oauth_params (ks : list string) : string :=
  match ks with
  | [] => "oauth_signature_method=" ++ dquote ++ "PLAINTEXT" ++ dquote
  | k :: ks' =>
      "oauth_consumer_key=" ++ dquote ++ k ++ dquote ++ ", " ++ oauth_params ks'
  end.

Definition callback (ks : list string) : http.Request := {|
  http.Method := "GET";
  http.Request_Header := {[ "Authorization" := ["OAuth " ++ oauth_params ks] ]};
  http.Request_RawQuery := "waitid=7";
  http.Request_Body := EmptyString |}.

(** The body [{is_valid: b, error: e}] on the wire. *)
Definition body (b : bool) (e : string) : string :=
  "{" ++ dquote ++ "is_valid" ++ dquote ++ ":" ++ (if b then "true" else "false")
  ++ "," ++ dquote ++ "error" ++ dquote ++ ":" ++ dquote ++ e ++ dquote ++ "}".

Definition response (contentType : string) (data : string) : http.Response := {|
  http.Response_Header := {[ "Content-Type" := [contentType] ]};
  http.Response_Body := data |}.

(** A world in which [http.Post] yields [answer].  The library functions
    are tabulated on the arguments the examples give them: [url.Parse]
    knows the callback URL and rejects a lone colon (no scheme before
    it), the two bodies [body true] and [body false] with an empty error
    unmarshal, the two media types parse.  Their value elsewhere is of no
    use and stands for nothing. *)
Definition world (answer : result http.Response) : World := {|
  url_Parse := fun s =>
    if String.eqb s callbackURL then Ok callbackURL_parsed
    else Err (errgo.Foreign "missing protocol scheme");
  URL_String := fun u =>
    url.Scheme u ++ "://" ++ url.Host u ++ url.Path u
    ++ (if String.eqb (url.RawQuery u) EmptyString then EmptyString
        else "?" ++ url.RawQuery u);
  Request_ParseForm := fun req =>
    if String.eqb (http.Request_RawQuery req) "waitid=7"
    then {[ "waitid" := ["7"] ]} else ∅;
  Values_Encode := fun v =>
    match v !! "waitid" with
    | Some [x] => "waitid=" ++ x
    | _ => EmptyString
    end;
  http_Post := fun _ _ _ => answer;
  mime_ParseMediaType := fun s =>
    if String.eqb s "application/json" then Ok (s, ∅)
    else if String.eqb s "text/plain" then Ok (s, ∅)
    else Err (errgo.Foreign "mime: no media type");
  json_Unmarshal := fun data =>
    if String.eqb data (body true EmptyString)
    then Ok {| IsValid := true; Error := EmptyString |}
    else if String.eqb data (body false EmptyString)
    then Ok {| IsValid := false; Error := EmptyString |}
    else Err (errgo.Foreign "invalid character")
|}.

(** The validator accepts the signature. *)
Definition accepting : World :=
  world (Ok (response "application/json" (body true EmptyString))).

(** The validator answers in plain text. *)
Definition plain_text : World :=
  world (Ok (response "text/plain" "OK")).

Definition alice : params.User :=
  {| params.User_Username := "alice";
     params.User_ExternalID := "https://login.ubuntu.com/+id/u123" |}.

(** A login context whose user store knows alice. *)
Definition context (ks : list string) : Context := {|
  RequestURL := callbackURL;
  Params_Request := callback ks;
  FindUserByExternalId := fun id =>
    if String.eqb id "https://login.ubuntu.com/+id/u123" then Ok alice
    else Err (errgo.Foreign "not found") |}.

(** A URL context that hangs paths under the provider's location. *)
Definition urls : URLContext :=
  {| URLContext_URL := fun path =>
       "https://idm.example.com/login/usso_oauth" ++ path |}.

End example.

(** ** Notions for the further properties *)

Module notions.
Import ussooauth.

(** [s] holds no U+0022. *)
Fixpoint quote_free (s : string) : bool :=
  match s with
  | EmptyString => true
  | String c s' => negb (Ascii.eqb c "034"%char) && quote_free s'
  end.

(** The closings of a response body in a trace. *)
Definition is_close (e : Event) : bool :=
  match e with
  | EvBodyClose => true
  | _ => false
  end.

Definition closes (t : list Event) : list Event := List.filter is_close t.

(** The calls of the user store in a trace. *)
Definition is_lookup (e : Event) : bool :=
  match e with
  | EvFindUser _ => true
  | _ => false
  end.

Definition lookups (t : list Event) : list Event := List.filter is_lookup t.

(** The error was made by [errgo] (with [Newf], [Notef] or [Mask]), not
    handed over as it came from a collaborator. *)
Definition made_by_errgo (e : errgo.error) : bool :=
  match e with
  | errgo.Foreign _ => false
  | _ => true
  end.

(** The causes handed to the failure sink in a trace. *)
Fixpoint causes (t : list Event) : list errgo.error :=
  match t with
  | [] => []
  | EvLoginFailure e :: t' => e :: causes t'
  | _ :: t' => causes t'
  end.

End notions.

(** ** More examples *)

Module scenarios.
Import ussooauth.

(** The login callback under another correlation token. *)
Definition callbackURL_other : string :=
  "https://idm.example.com/login/usso_oauth/oauth?waitid=8".

(** The accepting world, with a [url.Parse] that knows both callback
    URLs. *)
Definition two_urls : World := {|
  url_Parse := fun s =>
    if String.eqb s callbackURL_other
    then Ok (url.set_RawQuery example.callbackURL_parsed "waitid=8")
    else @url_Parse example.accepting s;
  URL_String := @URL_String example.accepting;
  Request_ParseForm := @Request_ParseForm example.accepting;
  Values_Encode := @Values_Encode example.accepting;
  http_Post := @http_Post example.accepting;
  mime_ParseMediaType := @mime_ParseMediaType example.accepting;
  json_Unmarshal := @json_Unmarshal example.accepting
|}.

(** The validator cannot be reached. *)
Definition unreachable : World :=
  example.world (Err (errgo.Foreign "connection refused")).

(** A login context whose request URL is a lone colon. *)
Definition colon_context : Context := {|
  RequestURL := ":";
  Params_Request := example.callback ["u123"];
  FindUserByExternalId := fun _ => Err (errgo.Foreign "not found") |}.

End scenarios.

(** * The operation resolver *)

Section ResolverFacts.
Context `{I : Imports}.
Import v1 params.

(** A case that selects no field returns whatever the pointer is; a case
    that selects one returns when the pointer is not nil. *)
Lemma opForRequest_known_returns (r : arg) :
  known r = true ->
  nil_pointer r && reads_field r = false ->
  exists op, opForRequest r = ([], Returns op).
Proof.
  destruct r as [ | p | p | p | p | p | p | p | p | p | p | p | p | p | p | p
                | p | p | p | ty syn ];
    try discriminate; intros _ Hnil;
    try (destruct p as [v|]; [ | discriminate Hnil ]);
    cbn; try (destruct (negb _)); eauto.
Qed.

(** The default case logs its argument and falls through to the zero
    operation. *)
Lemma opForRequest_unknown (r : arg) :
  known r = false ->
  opForRequest r =
    ([Infof "unknown API argument type %#v" [r]], Returns bakery.zero).
Proof.
  destruct r; try discriminate; reflexivity.
Qed.

(** A nil pointer whose case selects a field makes the call panic. *)
Lemma opForRequest_nil_panics (r : arg) :
  nil_pointer r && reads_field r = true ->
  opForRequest r = ([], Panics nil_dereference).
Proof.
  destruct r as [ | p | p | p | p | p | p | p | p | p | p | p | p | p | p | p
                | p | p | p | ty syn ];
    try discriminate; destruct p; try discriminate; reflexivity.
Qed.

End ResolverFacts.

(** C1: for every SetUserRequest [r], the resolver returns the operation
    with entity [r.Owner] and action CreateAgent when the owner is not
    empty, and the operation with entity [r.Username] and action WriteAdmin
    when the owner is the empty string. *)
Theorem C1_set_user_operation `{I : Imports} (r : params.SetUserRequest) :
  (params.SetUserRequest_Owner r <> EmptyString ->
   v1.opForRequest (v1.SetUser (Some r)) =
     ([], Returns {| bakery.Entity := params.SetUserRequest_Owner r;
                     bakery.Action := ActionCreateAgent |}))
  /\
  (params.SetUserRequest_Owner r = EmptyString ->
   v1.opForRequest (v1.SetUser (Some r)) =
     ([], Returns {| bakery.Entity := params.SetUserRequest_Username r;
                     bakery.Action := ActionWriteAdmin |})).
Proof.
  split; intros Howner; cbn.
  - destruct (String.eqb_spec (params.SetUserRequest_Owner r) EmptyString)
      as [Heq | _]; [ contradiction | reflexivity ].
  - rewrite Howner. reflexivity.
Qed.

(** C1 on the two requests of the spec: owner alice, and no owner. *)
Lemma C1_set_user_operation_witness :
  v1.opForRequest (I := example.names)
    (v1.SetUser (Some {| params.SetUserRequest_Username := "bob";
                         params.SetUserRequest_Owner := "alice" |})) =
    ([], Returns {| bakery.Entity := "alice"; bakery.Action := "CreateAgent" |})
  /\
  v1.opForRequest (I := example.names)
    (v1.SetUser (Some {| params.SetUserRequest_Username := "bob";
                         params.SetUserRequest_Owner := EmptyString |})) =
    ([], Returns {| bakery.Entity := "bob"; bakery.Action := "WriteAdmin" |}).
Proof.
  split.
  - apply (proj1 (C1_set_user_operation (I := example.names)
      {| params.SetUserRequest_Username := "bob";
         params.SetUserRequest_Owner := "alice" |})).
    discriminate.
  - apply (proj2 (C1_set_user_operation (I := example.names)
      {| params.SetUserRequest_Username := "bob";
         params.SetUserRequest_Owner := EmptyString |})).
    reflexivity.
Defined.

(** C2, as stated, fails: handed a nil pointer to a UserRequest, the
    resolver selects [r.Username] through it and panics; it returns no
    operation. *)
Lemma C2_nil_pointer_counterexample :
  ~ exists log op,
      v1.opForRequest (I := example.names) (v1.GetUser None) = (log, Returns op).
Proof.
  intros (log & op & Hrun). discriminate Hrun.
Qed.

(** C2, amended: for every argument other than a nil pointer whose case
    selects a field, the resolver returns an operation and does not panic;
    when the type switch has no case for the argument (the nil interface
    and every value of another type), that operation is the zero operation
    and exactly one diagnostic, naming the argument, is logged; when it has
    one, nothing is logged. *)
Theorem C2_resolver_total `{I : Imports} (r : v1.arg) :
  v1.nil_pointer r && v1.reads_field r = false ->
  exists log op,
    v1.opForRequest r = (log, Returns op)
    /\ (v1.known r = false ->
        op = bakery.zero
        /\ log = [v1.Infof "unknown API argument type %#v" [r]])
    /\ (v1.known r = true -> log = []).
Proof.
  intros Hnil. destruct (v1.known r) eqn:Hknown.
  - destruct (opForRequest_known_returns r Hknown Hnil) as [op Hop].
    exists [], op. split; [ exact Hop | ].
    split; [ discriminate | reflexivity ].
  - exists [v1.Infof "unknown API argument type %#v" [r]], bakery.zero.
    split; [ now apply opForRequest_unknown | ].
    split; [ intros _; split; reflexivity | discriminate ].
Qed.

(** C2 amended, on a value of a type the switch does not know. *)
Lemma C2_resolver_total_witness :
  v1.nil_pointer (v1.OtherValue "int" "42")
    && v1.reads_field (v1.OtherValue "int" "42") = false
  /\ exists log op,
       v1.opForRequest (I := example.names) (v1.OtherValue "int" "42")
         = (log, Returns op)
       /\ (v1.known (v1.OtherValue "int" "42") = false ->
           op = bakery.zero
           /\ log = [v1.Infof "unknown API argument type %#v"
                       [v1.OtherValue "int" "42"]])
       /\ (v1.known (v1.OtherValue "int" "42") = true -> log = []).
Proof.
  split; [ reflexivity | ].
  apply (C2_resolver_total (I := example.names) (v1.OtherValue "int" "42")).
  reflexivity.
Defined.

(** C8: for every WhoAmIRequest, and whatever pointer carries it, the
    resolver returns the Login operation [identchecker.LoginOp] itself,
    built from no field of the request, and logs nothing. *)
Theorem C8_whoami_login `{I : Imports} (p : ptr params.WhoAmIRequest) :
  v1.opForRequest (v1.WhoAmI p) = ([], Returns LoginOp).
Proof.
  reflexivity.
Qed.

(** * The pattern of the consumer key *)

Section PatternFacts.
Import regexp.

Lemma matches_from_shape (s : string) :
  forall (skip : nat) (m : list string) (rest : list (list string)),
    matches_from skip s = m :: rest -> exists g, m = [whole g; g].
Proof.
  induction s as [ | c s IH ]; intros skip m rest.
  - discriminate.
  - destruct skip as [ | n ].
    + change (matches_from 0 (String c s)) with
        (match match_here (String c s) with
         | Some (g, _) =>
             [whole g; g] :: matches_from (String.length (whole g) - 1) s
         | None => matches_from 0 s
         end).
      destruct (match_here (String c s)) as [ [g r] | ].
      * intros Heq. injection Heq as <- _. now exists g.
      * apply IH.
    + apply IH.
Qed.

(** [FindStringSubmatch] is the first of all matches. *)
Lemma FindStringSubmatch_first (s : string) :
  FindStringSubmatch s = hd [] (matches s).
Proof.
  unfold matches. induction s as [ | c s IH ].
  - reflexivity.
  - change (FindStringSubmatch (String c s)) with
      (match match_here (String c s) with
       | Some (g, _) => [whole g; g]
       | None => FindStringSubmatch s
       end).
    change (matches_from 0 (String c s)) with
      (match match_here (String c s) with
       | Some (g, _) =>
           [whole g; g] :: matches_from (String.length (whole g) - 1) s
       | None => matches_from 0 s
       end).
    destruct (match_here (String c s)) as [ [g r] | ]; [ reflexivity | exact IH ].
Qed.

(** What [FindStringSubmatch] returns, by the consumer keys present. *)
Lemma FindStringSubmatch_keys (s : string) :
  FindStringSubmatch s =
    match consumer_keys s with
    | [] => []
    | k :: _ => [whole k; k]
    end.
Proof.
  rewrite FindStringSubmatch_first. unfold consumer_keys.
  destruct (matches s) as [ | m rest ] eqn:Hm; [ reflexivity | ].
  destruct (matches_from_shape s 0 m rest Hm) as [g ->]. reflexivity.
Qed.

End PatternFacts.

(** * The provider *)

Section ProviderFacts.
Context `{W : ussooauth.World}.
Import ussooauth errgo.

Lemma fst_bind {A B : Type} (m : IO A) (k : A -> IO B) :
  fst (bind m k) = (fst m ++ fst (k (snd m)))%list.
Proof. destruct m as [t a]. cbn. now destruct (k a). Qed.

Lemma snd_bind {A B : Type} (m : IO A) (k : A -> IO B) :
  snd (bind m k) = snd (k (snd m)).
Proof. destruct m as [t a]. cbn. now destruct (k a). Qed.

(** The verification behind a response that [http.Post] returned: what it
    does once the URL has parsed and the answer has come. *)
Lemma verify_answered (requestURL : string) (req : http.Request)
    (u : url.URL) (resp : http.Response) :
  url_Parse requestURL = Ok u ->
  http_Post endpoint "application/json" (payload u req) = Ok resp ->
  verifyOAuthSignature requestURL req =
    let contentType :=
      http.Header_Get (http.Response_Header resp) "Content-Type" in
    let data := http.Response_Body resp in
    let h := http.Header_Get (http.Request_Header req) "Authorization" in
    match mime_ParseMediaType contentType with
    | Err _ =>
        ([EvPost endpoint "application/json" (payload u req); EvBodyClose],
         Err (Newf "bad content type %q" [contentType]))
    | Ok (t, _) =>
        if String.eqb t "application/json" then
          ([EvPost endpoint "application/json" (payload u req);
            EvReadAll; EvUnmarshal data; EvBodyClose],
           match json_Unmarshal data with
           | Err err => Err (Mask err)
           | Ok v =>
               if String.eqb (Error v) EmptyString then
                 if IsValid v then
                   if Nat.eqb (List.length (regexp.FindStringSubmatch h)) 2
                   then Ok (ussoURL ++ "/+id/"
                              ++ nth 1 (regexp.FindStringSubmatch h) EmptyString)
                   else Err (Newf "no customer key in authorization" [])
                 else Err (Newf "invalid OAuth credentials" [])
               else Err (Newf "cannot validate OAuth credentials: %s" [Error v])
           end)
        else
          ([EvPost endpoint "application/json" (payload u req); EvBodyClose],
           Err (Newf "unexpected response type %q" [t]))
    end.
Proof.
  intros Hu Hp. unfold verifyOAuthSignature. rewrite Hu.
  unfold endpoint, payload in *. unfold json_Marshal.
  cbn [request_URL request_Method request_Authorization request_QueryString].
  cbv zeta. unfold bind at 1. cbn [emit].
  rewrite Hp.
  destruct (mime_ParseMediaType _) as [ [t ps] | e ]; [ | reflexivity ].
  destruct (String.eqb t "application/json"); [ | reflexivity ].
  cbn [negb].
  destruct (json_Unmarshal _) as [ v | e ]; [ | reflexivity ].
  destruct (String.eqb (Error v) EmptyString); [ | reflexivity ].
  destruct (IsValid v); [ | reflexivity ].
  cbn [negb].
  destruct (Nat.eqb _ 2); reflexivity.
Qed.

Lemma verify_unparsed (requestURL : string) (req : http.Request) (e : error) :
  url_Parse requestURL = Err e ->
  verifyOAuthSignature requestURL req =
    ([], Err (Notef e "cannot parse request URL" [])).
Proof.
  intros Hu. unfold verifyOAuthSignature. now rewrite Hu.
Qed.

Lemma verify_unanswered (requestURL : string) (req : http.Request)
    (u : url.URL) (e : error) :
  url_Parse requestURL = Ok u ->
  http_Post endpoint "application/json" (payload u req) = Err e ->
  verifyOAuthSignature requestURL req =
    ([EvPost endpoint "application/json" (payload u req)], Err (Mask e)).
Proof.
  intros Hu Hp. unfold verifyOAuthSignature. rewrite Hu.
  unfold endpoint, payload in *. unfold json_Marshal.
  cbn [request_URL request_Method request_Authorization request_QueryString].
  cbv zeta. unfold bind at 1. cbn [emit].
  now rewrite Hp.
Qed.

(** The case analysis every fact about a whole run starts with. *)
Ltac by_run requestURL req :=
  let u := fresh "u" in
  let e := fresh "e" in
  let resp := fresh "resp" in
  let Hu := fresh "Hu" in
  let Hp := fresh "Hp" in
  destruct (url_Parse requestURL) as [ u | e ] eqn:Hu;
  [ destruct (http_Post endpoint "application/json" (payload u req))
      as [ resp | e ] eqn:Hp;
    [ rewrite (verify_answered requestURL req u resp Hu Hp); cbv zeta;
      destruct (mime_ParseMediaType _) as [ [? ?] | ? ];
      [ destruct (String.eqb _ "application/json") | ]
    | rewrite (verify_unanswered requestURL req u e Hu Hp) ]
  | rewrite (verify_unparsed requestURL req e Hu) ].

(** The verification calls neither sink. *)
Lemma verify_calls_no_sink (requestURL : string) (req : http.Request) :
  sinks (fst (verifyOAuthSignature requestURL req)) = [].
Proof.
  by_run requestURL req; reflexivity.
Qed.

(** The verification posts once the URL has parsed, and not before. *)
Lemma verify_posts (requestURL : string) (req : http.Request) :
  posts (fst (verifyOAuthSignature requestURL req)) =
    match url_Parse requestURL with
    | Ok u => [EvPost endpoint "application/json" (payload u req)]
    | Err _ => []
    end.
Proof.
  by_run requestURL req; reflexivity.
Qed.

(** The one sink [Handle] calls, by the results of the verification and
    of the lookup. *)
Lemma Handle_outcome (p : ptr identityProvider) (c : Context) :
  sinks (fst (Handle p c)) =
    [ match snd (verifyOAuthSignature (RequestURL c) (Params_Request c)) with
      | Err err => EvLoginFailure err
      | Ok id =>
          match FindUserByExternalId c id with
          | Err err =>
              EvLoginFailure (Notef err "cannot get user details for %q" [id])
          | Ok u => EvLoginSuccess u
          end
      end ].
Proof.
  unfold Handle. rewrite fst_bind. unfold sinks. rewrite List.filter_app.
  fold (sinks (fst (verifyOAuthSignature (RequestURL c) (Params_Request c)))).
  rewrite verify_calls_no_sink.
  destruct (snd (verifyOAuthSignature (RequestURL c) (Params_Request c)))
    as [ id | err ]; [ | reflexivity ].
  cbn. destruct (FindUserByExternalId c id); reflexivity.
Qed.

(** When the verification returns an error, the login fails with it. *)
Lemma fails_with_intro (c : Context) (cause : error) :
  snd (verifyOAuthSignature (RequestURL c) (Params_Request c)) = Err cause ->
  fails_with c cause.
Proof.
  intros Hrun. split; [ exact Hrun | ].
  rewrite Handle_outcome. now rewrite Hrun.
Qed.

End ProviderFacts.

(** C3: for every login callback, [Handle] calls exactly one sink: the
    login-failure sink with the cause when the signature verification
    fails, the login-failure sink with the annotated lookup error when the
    user lookup fails, and the login-success sink with the resolved user
    when both succeed. *)
Theorem C3_exactly_one_outcome `{W : ussooauth.World}
    (p : ptr ussooauth.identityProvider) (c : ussooauth.Context) :
  ussooauth.sinks (fst (ussooauth.Handle p c)) =
    [ match snd (ussooauth.verifyOAuthSignature
                   (ussooauth.RequestURL c) (ussooauth.Params_Request c)) with
      | Err err => ussooauth.EvLoginFailure err
      | Ok id =>
          match ussooauth.FindUserByExternalId c id with
          | Err err =>
              ussooauth.EvLoginFailure
                (errgo.Notef err "cannot get user details for %q" [id])
          | Ok u => ussooauth.EvLoginSuccess u
          end
      end ].
Proof.
  apply Handle_outcome.
Qed.

(** C4, as stated, fails: the validator accepts, the Authorization header
    names two consumer keys, and the verification does not fail; it
    succeeds with the first key. *)
Lemma C4_two_keys_counterexample :
  2 <= List.length
         (regexp.consumer_keys
            (http.Header_Get
               (http.Request_Header (example.callback ["a"; "b"]))
               "Authorization"))
  /\ ~ exists e,
         snd (ussooauth.verifyOAuthSignature (W := example.accepting)
                example.callbackURL (example.callback ["a"; "b"])) = Err e.
Proof.
  split.
  - vm_compute. lia.
  - intros [e He]. vm_compute in He. discriminate He.
Qed.

(** C4, amended: after a valid validator response the verification looks
    for the consumer key in the Authorization header by the fixed pattern
    and requires a match: with no match it fails with the cause
    "no customer key in authorization"; with one match or more it
    succeeds, on the key of the leftmost match. *)
Theorem C4_consumer_key_required `{W : ussooauth.World}
    (requestURL : string) (req : http.Request) (u : url.URL)
    (resp : http.Response) (ps : gmap string string) :
  ussooauth.url_Parse requestURL = Ok u ->
  ussooauth.http_Post ussooauth.endpoint "application/json"
    (ussooauth.payload u req) = Ok resp ->
  ussooauth.mime_ParseMediaType
    (http.Header_Get (http.Response_Header resp) "Content-Type")
    = Ok ("application/json", ps) ->
  ussooauth.json_Unmarshal (http.Response_Body resp)
    = Ok {| ussooauth.IsValid := true; ussooauth.Error := EmptyString |} ->
  let keys :=
    regexp.consumer_keys
      (http.Header_Get (http.Request_Header req) "Authorization") in
  let run := ussooauth.verifyOAuthSignature requestURL req in
  (keys = [] ->
   snd run = Err (errgo.Newf "no customer key in authorization" []))
  /\
  (forall k rest, keys = k :: rest ->
   snd run = Ok (ussooauth.ussoURL ++ "/+id/" ++ k)).
Proof.
  intros Hu Hp Ht Hj keys run. subst keys run.
  rewrite (verify_answered requestURL req u resp Hu Hp). cbv zeta.
  rewrite Ht, Hj, FindStringSubmatch_keys. cbn.
  split.
  - intros ->. reflexivity.
  - intros k rest ->. reflexivity.
Qed.

(** C4 amended, on a header without a consumer key and on one with two. *)
Lemma C4_consumer_key_required_witness :
  snd (ussooauth.verifyOAuthSignature (W := example.accepting)
         example.callbackURL (example.callback []))
    = Err (errgo.Newf "no customer key in authorization" [])
  /\
  snd (ussooauth.verifyOAuthSignature (W := example.accepting)
         example.callbackURL (example.callback ["a"; "b"]))
    = Ok "https://login.ubuntu.com/+id/a".
Proof.
  split.
  - apply (proj1 (C4_consumer_key_required (W := example.accepting)
      example.callbackURL (example.callback []) example.callbackURL_parsed
      (example.response "application/json" (example.body true EmptyString)) ∅
      eq_refl eq_refl eq_refl eq_refl)).
    reflexivity.
  - apply (proj2 (C4_consumer_key_required (W := example.accepting)
      example.callbackURL (example.callback ["a"; "b"])
      example.callbackURL_parsed
      (example.response "application/json" (example.body true EmptyString)) ∅
      eq_refl eq_refl eq_refl eq_refl) "a" ["b"]).
    reflexivity.
Defined.

(** C5: once the validator has answered, the login fails, in that the
    verification returns an error and [Handle] calls the failure sink and
    never the success sink, whenever the Content-Type of the response does
    not parse or its media type is not application/json (and then the body
    is neither read nor unmarshalled), whenever the body does not unmarshal,
    whenever the error member is not empty, and whenever is_valid is
    false. *)
Theorem C5_rejected_responses `{W : ussooauth.World}
    (c : ussooauth.Context) (u : url.URL) (resp : http.Response) :
  ussooauth.url_Parse (ussooauth.RequestURL c) = Ok u ->
  ussooauth.http_Post ussooauth.endpoint "application/json"
    (ussooauth.payload u (ussooauth.Params_Request c)) = Ok resp ->
  let contentType :=
    http.Header_Get (http.Response_Header resp) "Content-Type" in
  let data := http.Response_Body resp in
  (forall e, ussooauth.mime_ParseMediaType contentType = Err e ->
     ussooauth.fails_with c (errgo.Newf "bad content type %q" [contentType])
     /\ ussooauth.body_untouched c)
  /\
  (forall t ps, ussooauth.mime_ParseMediaType contentType = Ok (t, ps) ->
     t <> "application/json" ->
     ussooauth.fails_with c (errgo.Newf "unexpected response type %q" [t])
     /\ ussooauth.body_untouched c)
  /\
  (forall ps, ussooauth.mime_ParseMediaType contentType
                = Ok ("application/json", ps) ->
     (forall e, ussooauth.json_Unmarshal data = Err e ->
        ussooauth.fails_with c (errgo.Mask e))
     /\
     (forall v, ussooauth.json_Unmarshal data = Ok v ->
        ussooauth.Error v <> EmptyString ->
        ussooauth.fails_with c
          (errgo.Newf "cannot validate OAuth credentials: %s"
             [ussooauth.Error v]))
     /\
     (forall v, ussooauth.json_Unmarshal data = Ok v ->
        ussooauth.Error v = EmptyString ->
        ussooauth.IsValid v = false ->
        ussooauth.fails_with c (errgo.Newf "invalid OAuth credentials" []))).
Proof.
  intros Hu Hp contentType data. subst contentType data.
  pose proof (verify_answered _ _ u resp Hu Hp) as Hrun. cbv zeta in Hrun.
  split; [ | split ].
  - intros e Ht. rewrite Ht in Hrun. split.
    + apply fails_with_intro. now rewrite Hrun.
    + unfold ussooauth.body_untouched. now rewrite Hrun.
  - intros t ps Ht Hne. rewrite Ht in Hrun.
    destruct (String.eqb_spec t "application/json") as [ Heq | _ ];
      [ contradiction | ].
    split.
    + apply fails_with_intro. now rewrite Hrun.
    + unfold ussooauth.body_untouched. now rewrite Hrun.
  - intros ps Ht. rewrite Ht in Hrun. cbn [String.eqb] in Hrun.
    change (String.eqb "application/json" "application/json") with true in Hrun.
    cbv iota in Hrun.
    split; [ | split ].
    + intros e Hj. rewrite Hj in Hrun.
      apply fails_with_intro. now rewrite Hrun.
    + intros v Hj Herr. rewrite Hj in Hrun.
      destruct (String.eqb_spec (ussooauth.Error v) EmptyString)
        as [ Heq | _ ]; [ contradiction | ].
      apply fails_with_intro. now rewrite Hrun.
    + intros v Hj Herr Hvalid. rewrite Hj, Herr, Hvalid in Hrun.
      apply fails_with_intro. now rewrite Hrun.
Qed.

(** C5 on a validator that answers in plain text, and on one that answers
    is_valid false. *)
Lemma C5_rejected_responses_witness :
  (ussooauth.fails_with (W := example.plain_text) (example.context ["u123"])
     (errgo.Newf "unexpected response type %q" ["text/plain"])
   /\ ussooauth.body_untouched (W := example.plain_text)
        (example.context ["u123"]))
  /\
  ussooauth.fails_with
    (W := example.world
            (Ok (example.response "application/json"
                   (example.body false EmptyString))))
    (example.context ["u123"])
    (errgo.Newf "invalid OAuth credentials" []).
Proof.
  split.
  - apply (proj1 (proj2 (C5_rejected_responses (W := example.plain_text)
      (example.context ["u123"]) example.callbackURL_parsed
      (example.response "text/plain" "OK") eq_refl eq_refl))
      "text/plain" ∅ eq_refl).
    discriminate.
  - apply (proj2 (proj2 (proj2 (proj2 (C5_rejected_responses
      (W := example.world
              (Ok (example.response "application/json"
                     (example.body false EmptyString))))
      (example.context ["u123"]) example.callbackURL_parsed
      (example.response "application/json" (example.body false EmptyString))
      eq_refl eq_refl)) ∅ eq_refl))
      {| ussooauth.IsValid := false; ussooauth.Error := EmptyString |}
      eq_refl eq_refl eq_refl).
Defined.

(** C6: when the validator accepts (the response is application/json and
    unmarshals to is_valid true with an empty error) and the Authorization
    header holds exactly one consumer key [k], the verification returns the
    external identity made of the namespace of the validator, "/+id/" and
    [k]. *)
Theorem C6_external_identity `{W : ussooauth.World}
    (requestURL : string) (req : http.Request) (u : url.URL)
    (resp : http.Response) (ps : gmap string string) (k : string) :
  ussooauth.url_Parse requestURL = Ok u ->
  ussooauth.http_Post ussooauth.endpoint "application/json"
    (ussooauth.payload u req) = Ok resp ->
  ussooauth.mime_ParseMediaType
    (http.Header_Get (http.Response_Header resp) "Content-Type")
    = Ok ("application/json", ps) ->
  ussooauth.json_Unmarshal (http.Response_Body resp)
    = Ok {| ussooauth.IsValid := true; ussooauth.Error := EmptyString |} ->
  regexp.consumer_keys
    (http.Header_Get (http.Request_Header req) "Authorization") = [k] ->
  snd (ussooauth.verifyOAuthSignature requestURL req)
    = Ok (ussooauth.ussoURL ++ "/+id/" ++ k).
Proof.
  intros Hu Hp Ht Hj Hk.
  rewrite (verify_answered requestURL req u resp Hu Hp). cbv zeta.
  rewrite Ht, Hj, FindStringSubmatch_keys, Hk. reflexivity.
Qed.

(** C6 on the header of the spec, which names the consumer key u123. *)
Lemma C6_external_identity_witness :
  regexp.consumer_keys
    (http.Header_Get (http.Request_Header (example.callback ["u123"]))
       "Authorization") = ["u123"]
  /\ snd (ussooauth.verifyOAuthSignature (W := example.accepting)
            example.callbackURL (example.callback ["u123"]))
       = Ok "https://login.ubuntu.com/+id/u123".
Proof.
  split; [ reflexivity | ].
  apply (C6_external_identity (W := example.accepting)
    example.callbackURL (example.callback ["u123"]) example.callbackURL_parsed
    (example.response "application/json" (example.body true EmptyString)) ∅
    "u123" eq_refl eq_refl eq_refl eq_refl eq_refl).
Defined.

Section MarshalFacts.

(** A string that is well-formed UTF-8 is marshalled as it is. *)
Lemma marshal_from_well_formed (s : string) :
  forall skip, json.well_formed_from skip s = true -> json.marshal_from skip s = s.
Proof.
  induction s as [ | c s IH ]; intros skip; [ reflexivity | ].
  destruct skip as [ | n ]; cbn [json.well_formed_from json.marshal_from].
  - destruct (json.rune_size (String c s)) as [ | n ]; [ discriminate | ].
    intros Hs. now rewrite (IH n Hs).
  - intros Hs. now rewrite (IH n Hs).
Qed.

Lemma marshal_string_well_formed (s : string) :
  json.well_formed s = true -> json.marshal_string s = s.
Proof.
  apply marshal_from_well_formed.
Qed.

End MarshalFacts.

(** C7, as stated, fails twice.  A request URL that does not parse ends the
    verification before anything is posted, so not every verification
    makes exactly one POST.  And for an Authorization header with the byte
    FF in it, which is not UTF-8, the authorization posted is not that
    header: the encoder has put U+FFFD for the byte. *)
Lemma C7_validation_request_counterexample :
  List.length
    (ussooauth.posts
       (fst (ussooauth.verifyOAuthSignature (W := example.accepting)
               ":" (example.callback ["u123"])))) <> 1
  /\ ~ exists target contentType body,
         ussooauth.posts
           (fst (ussooauth.verifyOAuthSignature (W := example.accepting)
                   example.callbackURL
                   (example.callback [String "u" (String "255"%char EmptyString)])))
           = [ussooauth.EvPost target contentType body]
         /\ In ("authorization",
                http.Header_Get
                  (http.Request_Header
                     (example.callback
                        [String "u" (String "255"%char EmptyString)]))
                  "Authorization") body.
Proof.
  split.
  - vm_compute. discriminate.
  - intros (target & contentType & body & Hposts & Hin).
    vm_compute in Hposts. injection Hposts as _ _ <-.
    vm_compute in Hin.
    destruct Hin as [ H | [ H | [ H | [ H | [] ] ] ] ]; discriminate H.
Qed.

(** C7, amended: a verification makes at most one POST; it makes none when
    the request URL does not parse, and exactly one when it parses.  That
    POST goes to the validation endpoint as application/json, and its body
    is the object with exactly the keys http_url, http_method,
    authorization and query_string, in which http_url is the parsed request
    URL written back without its query, http_method the method of the
    request, authorization its Authorization header and query_string its
    form, encoded; each of the four is written as [json.Marshal] writes a
    string, with U+FFFD in the place of every byte that is not part of a
    well-formed UTF-8 sequence, and so as it is when it is well-formed
    UTF-8. *)
Theorem C7_validation_request `{W : ussooauth.World}
    (requestURL : string) (req : http.Request) :
  let sent :=
    ussooauth.posts (fst (ussooauth.verifyOAuthSignature requestURL req)) in
  List.length sent <= 1
  /\ (forall e, ussooauth.url_Parse requestURL = Err e -> sent = [])
  /\ (forall u, ussooauth.url_Parse requestURL = Ok u ->
      exists body,
        sent = [ussooauth.EvPost
                  "https://login.ubuntu.com/api/v2/requests/validate"
                  "application/json" body]
        /\ json.keys body =
             ["http_url"; "http_method"; "authorization"; "query_string"]
        /\ body =
             [ ("http_url",
                json.marshal_string
                  (ussooauth.URL_String (url.set_RawQuery u EmptyString)));
               ("http_method", json.marshal_string (http.Method req));
               ("authorization",
                json.marshal_string
                  (http.Header_Get (http.Request_Header req) "Authorization"));
               ("query_string",
                json.marshal_string
                  (ussooauth.Values_Encode
                     (ussooauth.Request_ParseForm req))) ])
  /\ (forall s, json.well_formed s = true -> json.marshal_string s = s).
Proof.
  intros sent. subst sent. rewrite verify_posts.
  split; [ | split; [ | split ] ].
  - destruct (ussooauth.url_Parse requestURL); cbn; lia.
  - intros e ->. reflexivity.
  - intros u ->. eexists. split; [ reflexivity | ]. split; reflexivity.
  - exact marshal_string_well_formed.
Qed.

(** C7 amended, on the callback of the examples, whose strings are all
    well-formed. *)
Lemma C7_validation_request_witness :
  ussooauth.posts
    (fst (ussooauth.verifyOAuthSignature (W := example.accepting)
            example.callbackURL (example.callback ["u123"])))
  = [ussooauth.EvPost "https://login.ubuntu.com/api/v2/requests/validate"
       "application/json"
       [ ("http_url", "https://idm.example.com/login/usso_oauth/oauth");
         ("http_method", "GET");
         ("authorization",
          http.Header_Get
            (http.Request_Header (example.callback ["u123"])) "Authorization");
         ("query_string", "waitid=7") ]].
Proof.
  destruct (proj1 (proj2 (proj2 (C7_validation_request (W := example.accepting)
    example.callbackURL (example.callback ["u123"]))))
    example.callbackURL_parsed eq_refl) as (body & Hsent & _ & Hbody).
  rewrite Hsent, Hbody. reflexivity.
Defined.

(** C9: for every URL context [c] and correlation token [w], [URL] returns
    [c.URL("/oauth")], with "?waitid=" and [w] appended exactly when [w] is
    not empty, and its error is nil. *)
Theorem C9_login_url (p : ptr ussooauth.identityProvider)
    (c : ussooauth.URLContext) (w : string) :
  snd (ussooauth.URL p c w) = None
  /\ (w <> EmptyString ->
      fst (ussooauth.URL p c w)
        = ussooauth.URLContext_URL c "/oauth" ++ "?waitid=" ++ w)
  /\ (w = EmptyString ->
      fst (ussooauth.URL p c w) = ussooauth.URLContext_URL c "/oauth").
Proof.
  unfold ussooauth.URL. cbn [fst snd].
  split; [ reflexivity | ].
  destruct (String.eqb_spec w EmptyString) as [ -> | Hne ]; cbn [negb]; split;
    intros Hw; try reflexivity; contradiction.
Qed.

(** C9 with the correlation token 7, and with none. *)
Lemma C9_login_url_witness :
  fst (ussooauth.URL ussooauth.IdentityProvider example.urls "7")
    = "https://idm.example.com/login/usso_oauth/oauth?waitid=7"
  /\ fst (ussooauth.URL ussooauth.IdentityProvider example.urls EmptyString)
       = "https://idm.example.com/login/usso_oauth/oauth".
Proof.
  split.
  - apply (proj1 (proj2 (C9_login_url ussooauth.IdentityProvider
      example.urls "7"))).
    discriminate.
  - apply (proj2 (proj2 (C9_login_url ussooauth.IdentityProvider
      example.urls EmptyString))).
    reflexivity.
Defined.

(** C10: whatever the receiver, [Name] returns "usso_oauth", which is the
    one name [init] registers a provider under, [Description] returns
    "Ubuntu SSO OAuth" and [Interactive] returns false; the factory
    registered yields the provider [IdentityProvider] and no error. *)
Theorem C10_constant_descriptor (p : ptr ussooauth.identityProvider) :
  ussooauth.Name p = "usso_oauth"
  /\ map ussooauth.registered_name ussooauth.init = [ussooauth.Name p]
  /\ ussooauth.Description p = "Ubuntu SSO OAuth"
  /\ ussooauth.Interactive p = false
  /\ forall unmarshal,
       map (fun r => ussooauth.registered_factory r unmarshal) ussooauth.init
         = [(ussooauth.IdentityProvider, None)].
Proof.
  repeat split.
Qed.

(** * Further properties of the pattern *)

Section StringFacts.

Lemma string_app_cons (x : ascii) (a b : string) :
  String x a ++ b = String x (a ++ b).
Proof. reflexivity. Qed.

Lemma string_app_nil_l (a : string) : EmptyString ++ a = a.
Proof. reflexivity. Qed.

Lemma string_app_assoc (a b c : string) : (a ++ b) ++ c = a ++ b ++ c.
Proof.
  induction a as [ | x a IH ]; [ reflexivity | ].
  rewrite !string_app_cons. now rewrite IH.
Qed.

Lemma string_app_length (a b : string) :
  String.length (a ++ b) = String.length a + String.length b.
Proof.
  induction a as [ | x a IH ]; [ reflexivity | ].
  rewrite string_app_cons. cbn [String.length]. now rewrite IH.
Qed.

Lemma string_app_inv_head (a b c : string) : a ++ b = a ++ c -> b = c.
Proof.
  induction a as [ | x a IH ]; [ now rewrite !string_app_nil_l | ].
  rewrite !string_app_cons. intros Heq. injection Heq as Heq. now apply IH.
Qed.

(** A string is not a proper extension of itself. *)
Lemma string_app_self (a b : string) : a = a ++ b -> b = EmptyString.
Proof.
  intros Heq. apply (f_equal String.length) in Heq.
  rewrite string_app_length in Heq.
  destruct b; [ reflexivity | cbn [String.length] in Heq; lia ].
Qed.

End StringFacts.

Section PatternMore.
Import regexp notions.

Lemma strip_app (p s : string) : strip p (p ++ s) = Some s.
Proof.
  induction p as [ | a p IH ]; [ now destruct s | ].
  rewrite string_app_cons. cbn [strip]. now rewrite Ascii.eqb_refl.
Qed.

Lemma strip_Some (p : string) :
  forall s r, strip p s = Some r -> s = p ++ r.
Proof.
  induction p as [ | a p IH ]; intros s r.
  - destruct s; cbn [strip]; intros Heq; now injection Heq as <-.
  - destruct s as [ | b s ]; cbn [strip]; [ discriminate | ].
    destruct (Ascii.eqb_spec a b) as [ <- | _ ]; [ | discriminate ].
    intros Heq. now rewrite string_app_cons, (IH s r Heq).
Qed.

(** Behind a string at least as long as [p], what follows does not change
    whether [p] is stripped. *)
Lemma strip_extend (p : string) :
  forall s e, String.length p <= String.length s ->
    strip p (s ++ e) =
      match strip p s with
      | Some r => Some (r ++ e)
      | None => None
      end.
Proof.
  induction p as [ | a p IH ]; intros s e Hlen.
  - now destruct s.
  - destruct s as [ | b s ]; cbn [String.length] in Hlen; [ lia | ].
    rewrite string_app_cons. cbn [strip].
    destruct (Ascii.eqb a b); [ | reflexivity ].
    apply IH. lia.
Qed.

Lemma group_then_quote_Some (s : string) :
  forall g r, group_then_quote s = Some (g, r) ->
    s = g ++ dquote ++ r /\ quote_free g = true.
Proof.
  induction s as [ | c s IH ]; intros g r; cbn [group_then_quote];
    [ discriminate | ].
  destruct (Ascii.eqb_spec c "034"%char) as [ -> | Hc ].
  - intros Heq. injection Heq as <- <-. now split.
  - destruct (group_then_quote s) as [ [g' r'] | ]; [ | discriminate ].
    intros Heq. injection Heq as <- <-.
    destruct (IH g' r' eq_refl) as [-> Hfree]. split; [ reflexivity | ].
    cbn [quote_free]. rewrite Hfree.
    destruct (Ascii.eqb_spec c "034"%char); [ contradiction | reflexivity ].
Qed.

(** A U+0022 ahead is enough for the tail of the pattern to match. *)
Lemma group_then_quote_finds (mid post : string) :
  exists g r, group_then_quote (mid ++ dquote ++ post) = Some (g, r).
Proof.
  induction mid as [ | c mid IH ].
  - now exists EmptyString, post.
  - rewrite string_app_cons. cbn [group_then_quote].
    destruct (Ascii.eqb c "034"%char); [ now eexists _, _ | ].
    destruct IH as (g & r & ->). now eexists _, _.
Qed.

Lemma group_then_quote_exact (g post : string) :
  quote_free g = true ->
  group_then_quote (g ++ dquote ++ post) = Some (g, post).
Proof.
  induction g as [ | c g IH ]; [ reflexivity | ].
  rewrite string_app_cons. cbn [group_then_quote quote_free].
  destruct (Ascii.eqb c "034"%char); cbn [negb andb]; [ discriminate | ].
  intros Hfree. now rewrite (IH Hfree).
Qed.

Lemma match_here_Some (s g r : string) :
  match_here s = Some (g, r) -> s = whole g ++ r /\ quote_free g = true.
Proof.
  unfold match_here, whole.
  destruct (strip prefix s) as [ s' | ] eqn:Hstrip; [ | discriminate ].
  intros Hgroup. apply strip_Some in Hstrip.
  destruct (group_then_quote_Some s' g r Hgroup) as [-> Hfree].
  split; [ | exact Hfree ].
  now rewrite Hstrip, !string_app_assoc.
Qed.

Lemma match_here_finds (mid post : string) :
  exists g r, match_here (prefix ++ mid ++ dquote ++ post) = Some (g, r).
Proof.
  unfold match_here. rewrite strip_app. apply group_then_quote_finds.
Qed.

Lemma match_here_exact (g post : string) :
  quote_free g = true -> match_here (whole g ++ post) = Some (g, post).
Proof.
  intros Hfree. unfold match_here, whole.
  rewrite !string_app_assoc, strip_app. now apply group_then_quote_exact.
Qed.

(** [FindStringSubmatch], one step. *)
Lemma FindStringSubmatch_step (s : string) :
  FindStringSubmatch s =
    match match_here s with
    | Some (g, _) => [whole g; g]
    | None =>
        match s with
        | EmptyString => []
        | String _ s' => FindStringSubmatch s'
        end
    end.
Proof.
  now destruct s.
Qed.

(** What [FindStringSubmatch] returns is nil, or the text of a match and its
    submatch; the match lies in the string and the submatch holds no
    U+0022. *)
Lemma FindStringSubmatch_cases (s : string) :
  FindStringSubmatch s = []
  \/ exists g pre post,
       FindStringSubmatch s = [whole g; g]
       /\ quote_free g = true
       /\ s = pre ++ whole g ++ post.
Proof.
  induction s as [ | c s IH ].
  - now left.
  - rewrite FindStringSubmatch_step.
    destruct (match_here (String c s)) as [ [g r] | ] eqn:Hhere.
    + right. destruct (match_here_Some _ _ _ Hhere) as [Hs Hfree].
      exists g, EmptyString, r. now repeat split.
    + destruct IH as [ Hnil | (g & pre & post & Hfind & Hfree & ->) ].
      * now left.
      * right. exists g, (String c pre), post. now repeat split.
Qed.

End PatternMore.

(** X1: what [FindStringSubmatch] returns is the nil slice or a slice of
    exactly two strings, the text of a match and its submatch; the text is
    the literal, the submatch and a closing U+0022, it lies in the string
    searched, and the submatch holds no U+0022. *)
Theorem X1_match_sound (s : string) :
  regexp.FindStringSubmatch s = []
  \/ exists g pre post,
       regexp.FindStringSubmatch s = [regexp.prefix ++ g ++ dquote; g]
       /\ notions.quote_free g = true
       /\ s = pre ++ (regexp.prefix ++ g ++ dquote) ++ post.
Proof.
  exact (FindStringSubmatch_cases s).
Qed.

(** X2: wherever the string holds the literal and a U+0022 somewhere behind
    it, [FindStringSubmatch] finds a match: it returns the nil slice only
    when the pattern occurs nowhere. *)
Theorem X2_match_complete (pre mid post : string) :
  regexp.FindStringSubmatch (pre ++ regexp.prefix ++ mid ++ dquote ++ post)
    <> [].
Proof.
  induction pre as [ | c pre IH ].
  - rewrite string_app_nil_l, FindStringSubmatch_step.
    destruct (match_here_finds mid post) as (g & r & ->). discriminate.
  - rewrite string_app_cons, FindStringSubmatch_step.
    destruct (regexp.match_here _) as [ [g r] | ]; [ discriminate | exact IH ].
Qed.

Section PatternLeftmost.
Import regexp notions.

(** What is left of a string that ends in U+0022, when a front part is
    taken off and something is left, ends in U+0022. *)
Lemma ends_with_quote (b : string) :
  forall a r, a ++ dquote = b ++ r -> r <> EmptyString ->
    exists r', r = r' ++ dquote.
Proof.
  induction b as [ | c b IH ]; intros a r Heq Hr.
  - rewrite string_app_nil_l in Heq. now exists a.
  - destruct a as [ | c' a ].
    + rewrite string_app_nil_l, string_app_cons in Heq.
      unfold dquote in Heq. injection Heq as _ Heq.
      destruct b; [ | discriminate Heq ].
      rewrite string_app_nil_l in Heq. now subst r.
    + rewrite !string_app_cons in Heq. injection Heq as _ Heq.
      now apply (IH a r).
Qed.

(** No match at the start of [x ++ prefix], with [x] not empty, means the
    literal is not there; nothing written behind changes that. *)
Lemma match_here_extend (x y : string) :
  x <> EmptyString ->
  match_here (x ++ prefix) = None ->
  match_here ((x ++ prefix) ++ y) = None.
Proof.
  intros Hx Hgroup. unfold match_here in *.
  rewrite strip_extend by (rewrite string_app_length; lia).
  destruct (strip prefix (x ++ prefix)) as [ r | ] eqn:Hstrip;
    [ | reflexivity ].
  exfalso.
  apply strip_Some in Hstrip.
  assert (Hr : r <> EmptyString).
  { intros ->. apply (f_equal String.length) in Hstrip.
    rewrite !string_app_length in Hstrip.
    destruct x; [ now apply Hx | cbn [String.length] in Hstrip; lia ]. }
  unfold prefix at 1 in Hstrip. rewrite <- string_app_assoc in Hstrip.
  destruct (ends_with_quote _ _ _ Hstrip Hr) as [r' ->].
  destruct (group_then_quote_finds r' EmptyString) as (g & rest & Hfound).
  change (dquote ++ EmptyString) with dquote in Hfound.
  rewrite Hfound in Hgroup. discriminate Hgroup.
Qed.

Lemma FindStringSubmatch_leftmost (pre g post : string) :
  FindStringSubmatch (pre ++ prefix) = [] ->
  quote_free g = true ->
  FindStringSubmatch (pre ++ whole g ++ post) = [whole g; g].
Proof.
  intros Hnone Hfree. induction pre as [ | c pre IH ].
  - rewrite string_app_nil_l, FindStringSubmatch_step.
    now rewrite (match_here_exact g post Hfree).
  - rewrite string_app_cons, FindStringSubmatch_step in Hnone.
    destruct (match_here (String c (pre ++ prefix))) as [ [g' r'] | ] eqn:Hhere;
      [ discriminate Hnone | ].
    assert (Hm : match_here (String c (pre ++ whole g ++ post)) = None).
    { replace (String c (pre ++ whole g ++ post))
        with ((String c pre ++ prefix) ++ g ++ dquote ++ post)
        by (unfold whole; now rewrite !string_app_cons, !string_app_assoc).
      apply match_here_extend; [ discriminate | exact Hhere ]. }
    rewrite string_app_cons, FindStringSubmatch_step, Hm.
    now apply IH.
Qed.

End PatternLeftmost.

(** X3: the match [FindStringSubmatch] returns is the leftmost one: when no
    match starts in the part [pre] of the string (which is to say that
    [pre] followed by the literal alone holds no match) and [g] holds no
    U+0022, the occurrence of the pattern with submatch [g] right behind
    [pre] is the one returned, whatever follows it. *)
Theorem X3_leftmost_match (pre g post : string) :
  regexp.FindStringSubmatch (pre ++ regexp.prefix) = [] ->
  notions.quote_free g = true ->
  regexp.FindStringSubmatch
    (pre ++ (regexp.prefix ++ g ++ dquote) ++ post)
    = [regexp.prefix ++ g ++ dquote; g].
Proof.
  exact (FindStringSubmatch_leftmost pre g post).
Qed.

(** X3 on a header in which a second consumer key follows the first. *)
Lemma X3_leftmost_match_witness :
  regexp.FindStringSubmatch
    ("OAuth realm=API, " ++ (regexp.prefix ++ "u123" ++ dquote)
       ++ ", " ++ regexp.prefix ++ "u456" ++ dquote)
    = [regexp.prefix ++ "u123" ++ dquote; "u123"].
Proof.
  apply (X3_leftmost_match "OAuth realm=API, " "u123"
           (", " ++ regexp.prefix ++ "u456" ++ dquote));
    reflexivity.
Defined.

(** * Further properties of the provider *)

Section ProviderMore.
Context `{W : ussooauth.World}.
Import ussooauth errgo notions.

(** The three ways a run of the verification can go. *)
Ltac run_cases requestURL req :=
  let u := fresh "u" in
  let e := fresh "e" in
  let resp := fresh "resp" in
  let Hu := fresh "Hu" in
  let Hp := fresh "Hp" in
  destruct (url_Parse requestURL) as [ u | e ] eqn:Hu;
  [ destruct (http_Post endpoint "application/json" (payload u req))
      as [ resp | e ] eqn:Hp;
    [ rewrite (verify_answered requestURL req u resp Hu Hp); cbv zeta
    | rewrite (verify_unanswered requestURL req u e Hu Hp) ]
  | rewrite (verify_unparsed requestURL req e Hu) ].

(** A verification that succeeds had an accepting answer and a match. *)
Lemma verify_ok_inv (requestURL : string) (req : http.Request) (id : string) :
  snd (verifyOAuthSignature requestURL req) = Ok id ->
  exists u resp ps g,
    url_Parse requestURL = Ok u
    /\ http_Post endpoint "application/json" (payload u req) = Ok resp
    /\ mime_ParseMediaType
         (http.Header_Get (http.Response_Header resp) "Content-Type")
         = Ok ("application/json", ps)
    /\ json_Unmarshal (http.Response_Body resp)
         = Ok {| IsValid := true; Error := EmptyString |}
    /\ regexp.FindStringSubmatch
         (http.Header_Get (http.Request_Header req) "Authorization")
         = [regexp.whole g; g]
    /\ quote_free g = true
    /\ id = ussoURL ++ "/+id/" ++ g.
Proof.
  run_cases requestURL req; try discriminate.
  destruct (mime_ParseMediaType _) as [ [t ps] | ] eqn:Ht; [ | discriminate ].
  destruct (String.eqb_spec t "application/json") as [ -> | _ ];
    [ | discriminate ].
  cbn [snd].
  destruct (json_Unmarshal _) as [ [valid err] | ] eqn:Hj; [ | discriminate ].
  cbn [Error IsValid].
  destruct (String.eqb_spec err EmptyString) as [ -> | _ ]; [ | discriminate ].
  destruct valid; [ | discriminate ].
  destruct (FindStringSubmatch_cases
              (http.Header_Get (http.Request_Header req) "Authorization"))
    as [ -> | (g & pre & post & -> & Hfree & _) ]; [ discriminate | ].
  cbn. intros Hid. injection Hid as <-.
  now exists u, resp, ps, g.
Qed.

(** An error the verification returns was made by [errgo]. *)
Lemma verify_error_made (requestURL : string) (req : http.Request) (e : error) :
  snd (verifyOAuthSignature requestURL req) = Err e -> made_by_errgo e = true.
Proof.
  run_cases requestURL req; cbn [snd];
    try (intros He; injection He as <-; reflexivity).
  destruct (mime_ParseMediaType _) as [ [t ps] | ];
    [ | intros He; injection He as <-; reflexivity ].
  destruct (String.eqb t "application/json"); cbn [snd];
    [ | intros He; injection He as <-; reflexivity ].
  destruct (json_Unmarshal _) as [ v | ];
    [ | intros He; injection He as <-; reflexivity ].
  destruct (String.eqb (Error v) EmptyString);
    [ | intros He; injection He as <-; reflexivity ].
  destruct (IsValid v); [ | intros He; injection He as <-; reflexivity ].
  destruct (Nat.eqb _ 2); [ discriminate | ].
  intros He; injection He as <-; reflexivity.
Qed.

(** The trace of the verification holds no call of the user store, and no
    cause. *)
Lemma verify_trace_quiet (requestURL : string) (req : http.Request) :
  lookups (fst (verifyOAuthSignature requestURL req)) = []
  /\ causes (fst (verifyOAuthSignature requestURL req)) = [].
Proof.
  run_cases requestURL req; try (now split).
  destruct (mime_ParseMediaType _) as [ [t ps] | ]; [ | now split ].
  destruct (String.eqb t "application/json"); now split.
Qed.

(** The trace of [Handle]: that of the verification, and then what [Handle]
    does with its result. *)
Lemma Handle_trace (p : ptr identityProvider) (c : Context) :
  fst (Handle p c) =
    (fst (verifyOAuthSignature (RequestURL c) (Params_Request c))
     ++ match snd (verifyOAuthSignature (RequestURL c) (Params_Request c)) with
        | Err err => [EvLoginFailure err]
        | Ok id =>
            EvFindUser id ::
            match FindUserByExternalId c id with
            | Err err =>
                [EvLoginFailure
                   (Notef err "cannot get user details for %q" [id])]
            | Ok u => fst (LoginUser c u)
            end
        end)%list.
Proof.
  unfold Handle. rewrite fst_bind. f_equal.
  destruct (snd (verifyOAuthSignature (RequestURL c) (Params_Request c)))
    as [ id | err ]; [ | reflexivity ].
  rewrite fst_bind. cbn [emit fst snd app].
  now destruct (FindUserByExternalId c id).
Qed.

Lemma causes_app (t1 t2 : list Event) :
  causes (t1 ++ t2) = (causes t1 ++ causes t2)%list.
Proof.
  induction t1 as [ | e t1 IH ]; [ reflexivity | ].
  destruct e; cbn; now rewrite IH.
Qed.

End ProviderMore.

(** X4: the verification returns an identity only when the request URL
    parsed, the validator answered with the media type application/json
    and a body that unmarshals to is_valid true with an empty error, and
    the Authorization header holds a match of the pattern; the identity is
    then the namespace, "/+id/" and the submatch of the leftmost match,
    which holds no U+0022. *)
Theorem X4_success_is_vouched `{W : ussooauth.World}
    (requestURL : string) (req : http.Request) (id : string) :
  snd (ussooauth.verifyOAuthSignature requestURL req) = Ok id ->
  exists u resp ps g,
    ussooauth.url_Parse requestURL = Ok u
    /\ ussooauth.http_Post ussooauth.endpoint "application/json"
         (ussooauth.payload u req) = Ok resp
    /\ ussooauth.mime_ParseMediaType
         (http.Header_Get (http.Response_Header resp) "Content-Type")
         = Ok ("application/json", ps)
    /\ ussooauth.json_Unmarshal (http.Response_Body resp)
         = Ok {| ussooauth.IsValid := true; ussooauth.Error := EmptyString |}
    /\ regexp.FindStringSubmatch
         (http.Header_Get (http.Request_Header req) "Authorization")
         = [regexp.prefix ++ g ++ dquote; g]
    /\ notions.quote_free g = true
    /\ id = ussooauth.ussoURL ++ "/+id/" ++ g.
Proof.
  exact (verify_ok_inv requestURL req id).
Qed.

(** X4 on the accepted callback with the consumer key u123. *)
Lemma X4_success_is_vouched_witness :
  exists u resp ps g,
    ussooauth.url_Parse (World := example.accepting) example.callbackURL = Ok u
    /\ ussooauth.http_Post (World := example.accepting)
         ussooauth.endpoint "application/json"
         (ussooauth.payload (W := example.accepting) u
            (example.callback ["u123"])) = Ok resp
    /\ ussooauth.mime_ParseMediaType (World := example.accepting)
         (http.Header_Get (http.Response_Header resp) "Content-Type")
         = Ok ("application/json", ps)
    /\ ussooauth.json_Unmarshal (World := example.accepting)
         (http.Response_Body resp)
         = Ok {| ussooauth.IsValid := true; ussooauth.Error := EmptyString |}
    /\ regexp.FindStringSubmatch
         (http.Header_Get (http.Request_Header (example.callback ["u123"]))
            "Authorization")
         = [regexp.prefix ++ g ++ dquote; g]
    /\ notions.quote_free g = true
    /\ "https://login.ubuntu.com/+id/u123" = ussooauth.ussoURL ++ "/+id/" ++ g.
Proof.
  apply (X4_success_is_vouched (W := example.accepting)
           example.callbackURL (example.callback ["u123"])
           "https://login.ubuntu.com/+id/u123").
  reflexivity.
Defined.

(** X5: two verifications that return the same identity found the same
    consumer key: the map from the leftmost consumer key of the
    Authorization header to the external identity is one to one. *)
Theorem X5_identity_determines_key `{W : ussooauth.World}
    (url1 url2 : string) (req1 req2 : http.Request) (id : string) :
  snd (ussooauth.verifyOAuthSignature url1 req1) = Ok id ->
  snd (ussooauth.verifyOAuthSignature url2 req2) = Ok id ->
  regexp.FindStringSubmatch
    (http.Header_Get (http.Request_Header req1) "Authorization")
  = regexp.FindStringSubmatch
      (http.Header_Get (http.Request_Header req2) "Authorization").
Proof.
  intros H1 H2.
  destruct (verify_ok_inv _ _ _ H1) as (_ & _ & _ & g1 & _ & _ & _ & _ & -> & _ & Hid1).
  destruct (verify_ok_inv _ _ _ H2) as (_ & _ & _ & g2 & _ & _ & _ & _ & -> & _ & Hid2).
  rewrite Hid1 in Hid2.
  apply string_app_inv_head, string_app_inv_head in Hid2. now subst g2.
Qed.

(** X5 on two callbacks that both lead with the consumer key u123. *)
Lemma X5_identity_determines_key_witness :
  regexp.FindStringSubmatch
    (http.Header_Get (http.Request_Header (example.callback ["u123"]))
       "Authorization")
  = regexp.FindStringSubmatch
      (http.Header_Get
         (http.Request_Header (example.callback ["u123"; "u456"]))
         "Authorization").
Proof.
  apply (X5_identity_determines_key (W := example.accepting)
           example.callbackURL example.callbackURL
           (example.callback ["u123"]) (example.callback ["u123"; "u456"])
           "https://login.ubuntu.com/+id/u123");
    reflexivity.
Defined.

(** X6: the body of a response is closed exactly once, as the last thing
    the verification does, whenever [http.Post] returned a response,
    however the verification ends; and nothing is closed when the request
    URL did not parse or [http.Post] failed. *)
Theorem X6_body_closed `{W : ussooauth.World}
    (requestURL : string) (req : http.Request) :
  let t := fst (ussooauth.verifyOAuthSignature requestURL req) in
  (forall u resp,
     ussooauth.url_Parse requestURL = Ok u ->
     ussooauth.http_Post ussooauth.endpoint "application/json"
       (ussooauth.payload u req) = Ok resp ->
     exists t', t = (t' ++ [ussooauth.EvBodyClose])%list
                /\ notions.closes t' = [])
  /\ (notions.closes t <> [] ->
      exists u resp,
        ussooauth.url_Parse requestURL = Ok u
        /\ ussooauth.http_Post ussooauth.endpoint "application/json"
             (ussooauth.payload u req) = Ok resp).
Proof.
  intros t. subst t. split.
  - intros u resp Hu Hp.
    rewrite (verify_answered requestURL req u resp Hu Hp). cbv zeta.
    destruct (ussooauth.mime_ParseMediaType _) as [ [ty ps] | ].
    + destruct (String.eqb ty "application/json").
      * now eexists [_; _; _].
      * now eexists [_].
    + now eexists [_].
  - destruct (ussooauth.url_Parse requestURL) as [ u | e ] eqn:Hu.
    + destruct (ussooauth.http_Post ussooauth.endpoint "application/json"
                  (ussooauth.payload u req)) as [ resp | e ] eqn:Hp.
      * intros _. now exists u, resp.
      * rewrite (verify_unanswered requestURL req u e Hu Hp).
        intros Hc. now contradiction Hc.
    + rewrite (verify_unparsed requestURL req e Hu).
      intros Hc. now contradiction Hc.
Qed.

(** X6 on a validator that answers in plain text: the body is closed
    though it is never read. *)
Lemma X6_body_closed_witness :
  exists t',
    fst (ussooauth.verifyOAuthSignature (W := example.plain_text)
           example.callbackURL (example.callback ["u123"]))
      = (t' ++ [ussooauth.EvBodyClose])%list
    /\ notions.closes t' = [].
Proof.
  apply (proj1 (X6_body_closed (W := example.plain_text)
                  example.callbackURL (example.callback ["u123"]))
           example.callbackURL_parsed (example.response "text/plain" "OK"));
    reflexivity.
Defined.

(** X7: when [http.Post] fails, the login fails with the masked error of
    [http.Post]; [Handle] has posted once and called the failure sink, and
    has done nothing else: no body is read or closed and the user store is
    not consulted. *)
Theorem X7_transport_failure `{W : ussooauth.World}
    (p : ptr ussooauth.identityProvider) (c : ussooauth.Context)
    (u : url.URL) (e : errgo.error) :
  ussooauth.url_Parse (ussooauth.RequestURL c) = Ok u ->
  ussooauth.http_Post ussooauth.endpoint "application/json"
    (ussooauth.payload u (ussooauth.Params_Request c)) = Err e ->
  snd (ussooauth.verifyOAuthSignature
         (ussooauth.RequestURL c) (ussooauth.Params_Request c))
    = Err (errgo.Mask e)
  /\ fst (ussooauth.Handle p c)
     = [ ussooauth.EvPost ussooauth.endpoint "application/json"
           (ussooauth.payload u (ussooauth.Params_Request c));
         ussooauth.EvLoginFailure (errgo.Mask e) ].
Proof.
  intros Hu Hp. rewrite Handle_trace.
  now rewrite (verify_unanswered _ _ u e Hu Hp).
Qed.

(** X7 on a validator that cannot be reached. *)
Lemma X7_transport_failure_witness :
  snd (ussooauth.verifyOAuthSignature (W := scenarios.unreachable)
         example.callbackURL (example.callback ["u123"]))
    = Err (errgo.Mask (errgo.Foreign "connection refused"))
  /\ fst (ussooauth.Handle (W := scenarios.unreachable)
            ussooauth.IdentityProvider (example.context ["u123"]))
     = [ ussooauth.EvPost ussooauth.endpoint "application/json"
           (ussooauth.payload (W := scenarios.unreachable)
              example.callbackURL_parsed (example.callback ["u123"]));
         ussooauth.EvLoginFailure
           (errgo.Mask (errgo.Foreign "connection refused")) ].
Proof.
  apply (X7_transport_failure (W := scenarios.unreachable)
           ussooauth.IdentityProvider (example.context ["u123"])
           example.callbackURL_parsed (errgo.Foreign "connection refused"));
    reflexivity.
Defined.

(** X8: when the request URL does not parse, the login fails with the
    error of [url.Parse] annotated "cannot parse request URL"; calling the
    failure sink is all [Handle] does: nothing is posted and the user
    store is not consulted. *)
Theorem X8_unparsed_request_url `{W : ussooauth.World}
    (p : ptr ussooauth.identityProvider) (c : ussooauth.Context)
    (e : errgo.error) :
  ussooauth.url_Parse (ussooauth.RequestURL c) = Err e ->
  snd (ussooauth.verifyOAuthSignature
         (ussooauth.RequestURL c) (ussooauth.Params_Request c))
    = Err (errgo.Notef e "cannot parse request URL" [])
  /\ fst (ussooauth.Handle p c)
     = [ ussooauth.EvLoginFailure
           (errgo.Notef e "cannot parse request URL" []) ].
Proof.
  intros Hu. rewrite Handle_trace.
  now rewrite (verify_unparsed _ _ e Hu).
Qed.

(** X8 on a request URL that is a lone colon. *)
Lemma X8_unparsed_request_url_witness :
  snd (ussooauth.verifyOAuthSignature (W := example.accepting)
         ":" (example.callback ["u123"]))
    = Err (errgo.Notef (errgo.Foreign "missing protocol scheme")
             "cannot parse request URL" [])
  /\ fst (ussooauth.Handle (W := example.accepting)
            ussooauth.IdentityProvider scenarios.colon_context)
     = [ ussooauth.EvLoginFailure
           (errgo.Notef (errgo.Foreign "missing protocol scheme")
              "cannot parse request URL" []) ].
Proof.
  apply (X8_unparsed_request_url (W := example.accepting)
           ussooauth.IdentityProvider scenarios.colon_context
           (errgo.Foreign "missing protocol scheme")).
  reflexivity.
Defined.

(** X9: [Handle] consults the user store only once the verification has
    succeeded, and then about the identity it returned, right after the
    events of the verification; after a failed verification the failure
    sink is called at once and the store is not consulted; and a failed
    lookup ends the login with the annotated error and nothing further. *)
Theorem X9_lookup_after_verification `{W : ussooauth.World}
    (p : ptr ussooauth.identityProvider) (c : ussooauth.Context) :
  let run :=
    ussooauth.verifyOAuthSignature
      (ussooauth.RequestURL c) (ussooauth.Params_Request c) in
  notions.lookups (fst run) = []
  /\ (forall e, snd run = Err e ->
        fst (ussooauth.Handle p c)
          = (fst run ++ [ussooauth.EvLoginFailure e])%list
        /\ notions.lookups (fst (ussooauth.Handle p c)) = [])
  /\ (forall id, snd run = Ok id ->
        exists rest,
          fst (ussooauth.Handle p c)
            = (fst run ++ ussooauth.EvFindUser id :: rest)%list)
  /\ (forall id e, snd run = Ok id ->
        ussooauth.FindUserByExternalId c id = Err e ->
        fst (ussooauth.Handle p c)
          = (fst run
             ++ [ ussooauth.EvFindUser id;
                  ussooauth.EvLoginFailure
                    (errgo.Notef e "cannot get user details for %q" [id]) ])%list).
Proof.
  intros run. subst run.
  pose proof (verify_trace_quiet (ussooauth.RequestURL c)
                (ussooauth.Params_Request c)) as [Hquiet _].
  split; [ exact Hquiet | ].
  rewrite Handle_trace. split; [ | split ].
  - intros e ->. split; [ reflexivity | ].
    unfold notions.lookups in *. rewrite List.filter_app, Hquiet. reflexivity.
  - intros id ->. now eexists.
  - intros id e -> ->. reflexivity.
Qed.

(** X9 on a callback the validator accepts, for a user the store does not
    know. *)
Lemma X9_lookup_after_verification_witness :
  fst (ussooauth.Handle (W := example.accepting)
         ussooauth.IdentityProvider (example.context ["u999"]))
  = (fst (ussooauth.verifyOAuthSignature (W := example.accepting)
            example.callbackURL (example.callback ["u999"]))
     ++ [ ussooauth.EvFindUser "https://login.ubuntu.com/+id/u999";
          ussooauth.EvLoginFailure
            (errgo.Notef (errgo.Foreign "not found")
               "cannot get user details for %q"
               ["https://login.ubuntu.com/+id/u999"]) ])%list.
Proof.
  apply (proj2 (proj2 (proj2 (X9_lookup_after_verification
           (W := example.accepting) ussooauth.IdentityProvider
           (example.context ["u999"]))))
           "https://login.ubuntu.com/+id/u999" (errgo.Foreign "not found"));
    reflexivity.
Defined.

(** X10: every error [verifyOAuthSignature] returns was made by [errgo]
    (new, annotated or masked): an error of [url.Parse], [http.Post] or
    [json.Unmarshal] is never returned as it came. *)
Theorem X10_errors_wrapped `{W : ussooauth.World}
    (requestURL : string) (req : http.Request) (e : errgo.error) :
  snd (ussooauth.verifyOAuthSignature requestURL req) = Err e ->
  notions.made_by_errgo e = true
  /\ forall msg, e <> errgo.Foreign msg.
Proof.
  intros He. pose proof (verify_error_made requestURL req e He) as Hmade.
  split; [ exact Hmade | ].
  intros msg ->. discriminate Hmade.
Qed.

(** X10 on a validator that cannot be reached. *)
Lemma X10_errors_wrapped_witness :
  notions.made_by_errgo (errgo.Mask (errgo.Foreign "connection refused")) = true
  /\ forall msg,
       errgo.Mask (errgo.Foreign "connection refused") <> errgo.Foreign msg.
Proof.
  apply (X10_errors_wrapped (W := scenarios.unreachable)
           example.callbackURL (example.callback ["u123"])).
  reflexivity.
Defined.

(** X11: for one URL context, different correlation tokens give different
    login URLs. *)
Theorem X11_login_url_injective (p : ptr ussooauth.identityProvider)
    (c : ussooauth.URLContext) (w1 w2 : string) :
  w1 <> w2 ->
  fst (ussooauth.URL p c w1) <> fst (ussooauth.URL p c w2).
Proof.
  intros Hne Heq. apply Hne. unfold ussooauth.URL in Heq. cbn [fst] in Heq.
  destruct (String.eqb_spec w1 EmptyString) as [ -> | H1 ];
    destruct (String.eqb_spec w2 EmptyString) as [ -> | H2 ];
    cbn [negb] in Heq.
  - reflexivity.
  - apply string_app_self in Heq.
    change ("?waitid=" ++ w2) with (String "?" ("waitid=" ++ w2)) in Heq.
    discriminate Heq.
  - symmetry in Heq. apply string_app_self in Heq.
    change ("?waitid=" ++ w1) with (String "?" ("waitid=" ++ w1)) in Heq.
    discriminate Heq.
  - now apply string_app_inv_head, string_app_inv_head in Heq.
Qed.

(** X11 on the tokens 7 and 8. *)
Lemma X11_login_url_injective_witness :
  fst (ussooauth.URL ussooauth.IdentityProvider example.urls "7")
  <> fst (ussooauth.URL ussooauth.IdentityProvider example.urls "8").
Proof.
  apply (X11_login_url_injective ussooauth.IdentityProvider example.urls
           "7" "8").
  discriminate.
Defined.

(** X12: [opForRequest] panics exactly on a nil pointer to a request
    struct whose case selects a field, and then before anything is logged;
    on every other argument it returns an operation. *)
Theorem X12_resolver_panics_exactly `{I : Imports} (r : v1.arg) :
  (v1.nil_pointer r && v1.reads_field r = true ->
   v1.opForRequest r = ([], Panics nil_dereference))
  /\ (forall log msg, v1.opForRequest r = (log, Panics msg) ->
      v1.nil_pointer r && v1.reads_field r = true).
Proof.
  split; [ apply opForRequest_nil_panics | ].
  intros log msg Hrun.
  destruct (v1.nil_pointer r && v1.reads_field r) eqn:Hnil; [ reflexivity | ].
  destruct (v1.known r) eqn:Hknown.
  - destruct (opForRequest_known_returns r Hknown Hnil) as [op Hop].
    rewrite Hop in Hrun. discriminate Hrun.
  - rewrite (opForRequest_unknown r Hknown) in Hrun. discriminate Hrun.
Qed.

(** X12 on a nil pointer to a SetUserRequest. *)
Lemma X12_resolver_panics_exactly_witness :
  v1.opForRequest (I := example.names) (v1.SetUser None)
    = ([], Panics nil_dereference).
Proof.
  apply (proj1 (X12_resolver_panics_exactly (I := example.names)
                  (v1.SetUser None))).
  reflexivity.
Defined.

(** X13: when a SetUserRequest names an owner, the operation required does
    not depend on the user name in the request: two requests of the same
    owner resolve alike. *)
Theorem X13_owner_takes_precedence `{I : Imports}
    (r r' : params.SetUserRequest) :
  params.SetUserRequest_Owner r <> EmptyString ->
  params.SetUserRequest_Owner r' = params.SetUserRequest_Owner r ->
  v1.opForRequest (v1.SetUser (Some r')) = v1.opForRequest (v1.SetUser (Some r)).
Proof.
  intros Hne Heq. cbn. rewrite Heq.
  destruct (String.eqb_spec (params.SetUserRequest_Owner r) EmptyString);
    [ contradiction | reflexivity ].
Qed.

(** X13 on two requests of owner alice, for bob and for carol. *)
Lemma X13_owner_takes_precedence_witness :
  v1.opForRequest (I := example.names)
    (v1.SetUser (Some {| params.SetUserRequest_Username := "carol";
                         params.SetUserRequest_Owner := "alice" |}))
  = v1.opForRequest (I := example.names)
      (v1.SetUser (Some {| params.SetUserRequest_Username := "bob";
                           params.SetUserRequest_Owner := "alice" |})).
Proof.
  apply (X13_owner_takes_precedence (I := example.names)
           {| params.SetUserRequest_Username := "bob";
              params.SetUserRequest_Owner := "alice" |}
           {| params.SetUserRequest_Username := "carol";
              params.SetUserRequest_Owner := "alice" |});
    [ discriminate | reflexivity ].
Defined.

(** X14: the query of the request URL plays no part in the verification:
    two request URLs that parse to the same URL but for [RawQuery] make the
    verification of a request post the same payload and end the same
    way. *)
Theorem X14_query_ignored `{W : ussooauth.World}
    (url1 url2 : string) (req : http.Request) (u : url.URL) (q : string) :
  ussooauth.url_Parse url1 = Ok u ->
  ussooauth.url_Parse url2 = Ok (url.set_RawQuery u q) ->
  ussooauth.verifyOAuthSignature url1 req
    = ussooauth.verifyOAuthSignature url2 req.
Proof.
  intros H1 H2. unfold ussooauth.verifyOAuthSignature.
  rewrite H1, H2. reflexivity.
Qed.

(** X14 on the callback URL under the correlation tokens 7 and 8. *)
Lemma X14_query_ignored_witness :
  ussooauth.verifyOAuthSignature (W := scenarios.two_urls)
    example.callbackURL (example.callback ["u123"])
  = ussooauth.verifyOAuthSignature (W := scenarios.two_urls)
      scenarios.callbackURL_other (example.callback ["u123"]).
Proof.
  apply (X14_query_ignored (W := scenarios.two_urls)
           example.callbackURL scenarios.callbackURL_other
           (example.callback ["u123"]) example.callbackURL_parsed "waitid=8");
    reflexivity.
Defined.

(** X15: when the Authorization header is well-formed UTF-8, the identity
    a verification returns is read from the very Authorization value it
    sent to the validator: after a success, the one POST made carries under
    the key authorization a string in which the pattern occurs with the
    submatch the identity ends in.  (For a header that is not well-formed
    the value sent has U+FFFD for the offending bytes, while the key is
    read from the header as it came.) *)
Theorem X15_key_from_validated_header `{W : ussooauth.World}
    (requestURL : string) (req : http.Request) (id : string) :
  snd (ussooauth.verifyOAuthSignature requestURL req) = Ok id ->
  json.well_formed
    (http.Header_Get (http.Request_Header req) "Authorization") = true ->
  exists body g pre post,
    ussooauth.posts (fst (ussooauth.verifyOAuthSignature requestURL req))
      = [ussooauth.EvPost ussooauth.endpoint "application/json" body]
    /\ In ("authorization", pre ++ (regexp.prefix ++ g ++ dquote) ++ post) body
    /\ id = ussooauth.ussoURL ++ "/+id/" ++ g.
Proof.
  intros Hok Hwf.
  destruct (verify_ok_inv requestURL req id Hok)
    as (u & resp & ps & g & Hu & _ & _ & _ & Hfind & _ & Hid).
  destruct (FindStringSubmatch_cases
              (http.Header_Get (http.Request_Header req) "Authorization"))
    as [ Hnil | (g' & pre & post & Hfind' & _ & Hheader) ].
  - rewrite Hnil in Hfind. discriminate Hfind.
  - rewrite Hfind' in Hfind. injection Hfind as _ ->.
    exists (ussooauth.payload u req), g, pre, post.
    rewrite verify_posts, Hu. split; [ reflexivity | ]. split; [ | exact Hid ].
    unfold ussooauth.payload.
    rewrite (marshal_string_well_formed _ Hwf).
    change (regexp.prefix ++ g ++ dquote) with (regexp.whole g).
    rewrite <- Hheader.
    right. right. left. reflexivity.
Qed.

(** X15 on the accepted callback with the consumer key u123. *)
Lemma X15_key_from_validated_header_witness :
  exists body g pre post,
    ussooauth.posts
      (fst (ussooauth.verifyOAuthSignature (W := example.accepting)
              example.callbackURL (example.callback ["u123"])))
      = [ussooauth.EvPost ussooauth.endpoint "application/json" body]
    /\ In ("authorization", pre ++ (regexp.prefix ++ g ++ dquote) ++ post) body
    /\ "https://login.ubuntu.com/+id/u123" = ussooauth.ussoURL ++ "/+id/" ++ g.
Proof.
  apply (X15_key_from_validated_header (W := example.accepting)
           example.callbackURL (example.callback ["u123"])
           "https://login.ubuntu.com/+id/u123");
    reflexivity.
Defined.
